(** * house_front: session lifecycle and token refresh of the API client

    A shallow embedding of [src/services/api.ts] (the axios instance [api]
    with its request and response interceptors, [authService]) and of
    [src/hooks/useAuth.ts] (the token and session helpers, [login],
    [logout]).

    The client runs on a single cooperative thread; every [async]
    function is embedded as a state transformer over a [World] holding
    the two key-value stores, the list of calls that reached the network
    and the navigation requests, and returning either a value, a thrown
    error, or fuel exhaustion of the one recursive definition. *)

From Stdlib Require Import Ascii String ZArith.
From Stdlib Require Strings.Byte.
From stdpp Require Import base option list strings pretty gmap.

Open Scope string_scope.
Open Scope list_scope.
Open Scope nat_scope.

(** ** JavaScript strings *)

Module Js.

(** [s.includes(pat)] *)
Fixpoint includes (s pat : string) : bool :=
  if String.prefix pat s then true
  else match s with
       | EmptyString => false
       | String _ s' => includes s' pat
       end.

(** [s.split(sep)[0]] for a one-character separator: the text before the
    first occurrence of [sep], the whole of [s] when there is none. *)
Fixpoint split_head (sep : Ascii.ascii) (s : string) : string :=
  match s with
  | EmptyString => EmptyString
  | String c s' => if Ascii.eqb c sep then EmptyString else String c (split_head sep s')
  end.

(** ** JavaScript values read from JSON bodies *)

Inductive Val :=
| Undefined
| Null
| Bool (b : bool)
| Num (n : Z)
| Str (s : string).

(** Truthiness, as tested by [if (v)], [!v] and [a || b]. *)
Definition truthy (v : Val) : bool :=
  match v with
  | Undefined | Null => false
  | Bool b => b
  | Num n => negb (n =? 0)%Z
  | Str s => negb (String.eqb s "")
  end.

(** [a || b] *)
Definition or (a b : Val) : Val := if truthy a then a else b.

(** [v === 'text'] *)
Definition is_str (v : Val) (text : string) : bool :=
  match v with
  | Str s => String.eqb s text
  | _ => false
  end.

(** [String(v)], the text a template literal puts for [${v}]. *)
Definition text (v : Val) : string :=
  match v with
  | Undefined => "undefined"
  | Null => "null"
  | Bool true => "true"
  | Bool false => "false"
  | Num n => pretty n
  | Str s => s
  end.

(** A value returned by [getItemAsync] / [getItem]: [string | null]. *)
Definition of_item (o : option string) : Val :=
  match o with
  | Some s => Str s
  | None => Null
  end.

End Js.

(** A JSON object: a finite map from property names to values; a missing
    property reads as [undefined]. *)
Definition prop (o : gmap string Js.Val) (k : string) : Js.Val :=
  default Js.Undefined (o !! k).

(** ** Requests, responses and errors *)

Inductive Method := GET | POST | PATCH | DELETE.

(** An axios request config, with the fields the interceptors read or
    write: [headers.Authorization] and the ad-hoc [_retry] mark. *)
Record Config := mkConfig {
  method : Method;
  url : string;
  Authorization : option string;
  _retry : bool;
  data : gmap string Js.Val
}.

Definition set_Authorization (h : string) (c : Config) : Config :=
  mkConfig (method c) (url c) (Some h) (_retry c) (data c).

Definition set_retry (c : Config) : Config :=
  mkConfig (method c) (url c) (Authorization c) true (data c).

(** An answer of the server. [response_data] is [response.data]: the
    JSON object of the body, or [None] when the answer has no body; axios
    then gives the empty text, which is falsy and has no property. *)
Record Response := mkAnswer {
  status : Z;
  response_data : option (gmap string Js.Val)
}.

(** An answer whose body is a JSON object. *)
Definition mkResponse (status : Z) (object : gmap string Js.Val) : Response :=
  mkAnswer status (Some object).

(** The properties of [response.data]: none when there is no body. *)
Definition body (response : Response) : gmap string Js.Val :=
  default ∅ (response_data response).

(** [if (response.data)]: an object is truthy, also an empty one; the
    empty text of a missing body is not. *)
Definition has_data (response : Response) : bool :=
  match response_data response with
  | Some _ => true
  | None => false
  end.

(** What a [catch] clause can receive: an axios error, which carries the
    config of the request and the response when the server sent one
    ([error.response] is absent on a network failure, where only
    [error.request] is set), or the error [expo-secure-store] raises when
    asked to store something that is not a string. *)
Inductive Error :=
| AxiosError (config : Config) (response : option Response)
| StoreError.

(** A call that reaches the network: a request dispatched by the [api]
    instance, whose [url] is relative to the base URL, or one made with
    the bare [axios], whose [url] is absolute and which no interceptor
    sees. *)
Inductive Call :=
| ApiDispatch (config : Config)
| AxiosDispatch (config : Config).

(** The backend: given the calls it has seen so far and the current one,
    it answers with a response, or not at all. *)
Definition Backend := list Call → Call → option Response.

(** ** The world *)

Record World := mkWorld {
  secureStore : gmap string string;   (* expo-secure-store *)
  asyncStorage : gmap string string;  (* AsyncStorage *)
  wire : list Call;                   (* calls sent, oldest first *)
  router : list string                (* router.replace targets, oldest first *)
}.

Inductive Outcome (A : Type) :=
| Ok (a : A)
| Throw (e : Error)
| OutOfFuel.
Arguments Ok {A} a.
Arguments Throw {A} e.
Arguments OutOfFuel {A}.

Definition Async (A : Type) : Type := World → Outcome A * World.

#[export] Instance Async_ret : MRet Async := λ A a w, (Ok a, w).

#[export] Instance Async_bind : MBind Async := λ A B k m w,
  match m w with
  | (Ok a, w') => k a w'
  | (Throw e, w') => (Throw e, w')
  | (OutOfFuel, w') => (OutOfFuel, w')
  end.

(** The value of a fulfilled promise. *)
Definition outcome_value {A} (o : Outcome A) : option A :=
  match o with
  | Ok a => Some a
  | _ => None
  end.

Definition throw {A} (e : Error) : Async A := λ w, (Throw e, w).

(** [try { body } catch (e) { handler e }] *)
Definition try_catch {A} (body : Async A) (handler : Error → Async A) : Async A := λ w,
  match body w with
  | (Throw e, w') => handler e w'
  | r => r
  end.

(** [try { body } finally { cleanup }] *)
Definition try_finally {A} (body : Async A) (cleanup : Async unit) : Async A := λ w,
  match body w with
  | (r, w') =>
      match cleanup w' with
      | (Ok _, w'') => (r, w'')
      | (Throw e, w'') => (Throw e, w'')
      | (OutOfFuel, w'') => (OutOfFuel, w'')
      end
  end.

(** ** The stores *)

Module SecureStore.

Definition getItemAsync (key : string) : Async Js.Val := λ w,
  (Ok (Js.of_item (secureStore w !! key)), w).

(** Values must be strings; anything else is refused with an error. *)
Definition setItemAsync (key : string) (value : Js.Val) : Async unit := λ w,
  match value with
  | Js.Str s => (Ok (), mkWorld (<[key := s]> (secureStore w)) (asyncStorage w) (wire w) (router w))
  | _ => (Throw StoreError, w)
  end.

Definition deleteItemAsync (key : string) : Async unit := λ w,
  (Ok (), mkWorld (delete key (secureStore w)) (asyncStorage w) (wire w) (router w)).

End SecureStore.

Module AsyncStorage.

Definition getItem (key : string) : Async Js.Val := λ w,
  (Ok (Js.of_item (asyncStorage w !! key)), w).

Definition setItem (key : string) (value : string) : Async unit := λ w,
  (Ok (), mkWorld (secureStore w) (<[key := value]> (asyncStorage w)) (wire w) (router w)).

Definition multiRemove (keys : list string) : Async unit := λ w,
  (Ok (), mkWorld (secureStore w) (foldr delete (asyncStorage w) keys) (wire w) (router w)).

End AsyncStorage.

Definition router_replace (target : string) : Async unit := λ w,
  (Ok (), mkWorld (secureStore w) (asyncStorage w) (wire w) (router w ++ [target])).

(** ** [src/services/api.ts] *)

Definition API_BASE_URL : string := "http://10.66.85.52:8001/api/v1".

(** The URL a call is sent to (the paths given to [api] start with one
    slash and are appended to the base URL). *)
Definition wire_url (c : Call) : string :=
  match c with
  | ApiDispatch config => API_BASE_URL +:+ url config
  | AxiosDispatch config => url config
  end.

Definition wire_method (c : Call) : Method :=
  match c with
  | ApiDispatch config | AxiosDispatch config => method config
  end.

Definition is_POST (m : Method) : bool :=
  match m with POST => true | _ => false end.

(** A POST to the refresh endpoint. *)
Definition is_refresh_post (c : Call) : bool :=
  is_POST (wire_method c) && String.eqb (wire_url c) (API_BASE_URL +:+ "/auth/token/refresh/").

Definition refresh_posts (calls : list Call) : nat :=
  length (filter (λ c, is_refresh_post c = true) calls).

(** axios' default [validateStatus]. *)
Definition validateStatus (s : Z) : bool := (200 <=? s)%Z && (s <? 300)%Z.

Section Client.

Context (backend : Backend).

(** Put a call on the wire and settle the promise the way axios does:
    resolved on a 2xx status, rejected with [error.response] on any other
    status, rejected without it when no answer came. *)
Definition settle (c : Call) (config : Config) : Async Response := λ w,
  let w' := mkWorld (secureStore w) (asyncStorage w) (wire w ++ [c]) (router w) in
  match backend (wire w) c with
  | Some response =>
      if validateStatus (status response) then (Ok response, w')
      else (Throw (AxiosError config (Some response)), w')
  | None => (Throw (AxiosError config None), w')
  end.

Definition dispatchRequest (config : Config) : Async Response :=
  settle (ApiDispatch config) config.

(** [axios.post(url, data)] on the bare axios. *)
Definition axios_post (url : string) (data : gmap string Js.Val) : Async Response :=
  let config := mkConfig POST url None false data in
  settle (AxiosDispatch config) config.

(** [api.interceptors.request.use]: the fulfilled handler. *)
Definition request_interceptor (config : Config) : Async Config :=
  if Js.includes (url config) "/auth/" then mret config
  else
    token ← SecureStore.getItemAsync "access_token";
    if Js.truthy token
    then mret (set_Authorization ("Bearer " +:+ Js.text token) config)
    else mret config.

Definition status_is_401 (response : option Response) : bool :=
  match response with
  | Some r => (status r =? 401)%Z
  | None => false
  end.

(** The [try { ... } catch { ... }] block of the response interceptor's
    rejected handler.

    The block ends in [return api(originalRequest)] with no [await]: the
    promise of the re-issued request settles outside the block, so its
    rejection is not caught by the [catch] clause. The block is therefore
    embedded as computing the request to re-issue, if any; the handler
    re-issues it afterwards. *)
Definition refresh_block (originalRequest : Config) : Async (option Config) :=
  try_catch
    (refreshToken ← SecureStore.getItemAsync "refresh_token";
     if Js.truthy refreshToken then
       response ← axios_post (API_BASE_URL +:+ "/auth/token/refresh/")
                             {[ "refresh" := refreshToken ]};
       let access := prop (body response) "access" in
       let refresh := prop (body response) "refresh" in
       SecureStore.setItemAsync "access_token" access;;
       (if Js.truthy refresh
        then SecureStore.setItemAsync "refresh_token" refresh
        else mret ());;
       mret (Some (set_Authorization ("Bearer " +:+ Js.text access) originalRequest))
     else mret None)
    (λ _,
       SecureStore.deleteItemAsync "access_token";;
       SecureStore.deleteItemAsync "refresh_token";;
       mret None).

(** [api.interceptors.response.use]: the rejected handler. [reissue]
    stands for the instance itself, called as [api(originalRequest)].
    Only axios errors reach the handler. *)
Definition response_interceptor
    (reissue : Config → Async Response) (error : Error) : Async Response :=
  match error with
  | AxiosError originalRequest response =>
      if status_is_401 response
         && negb (_retry originalRequest)
         && negb (Js.includes (url originalRequest) "/auth/token/")
      then
        let originalRequest := set_retry originalRequest in
        (* [error.config] is the object just marked *)
        let error := AxiosError originalRequest response in
        again ← refresh_block originalRequest;
        match again with
        | Some request => reissue request
        | None => throw error
        end
      else throw error
  | StoreError => throw error
  end.

(** The instance: request interceptor, dispatch, response interceptor.
    The response interceptor calls the instance again; [fuel] bounds the
    depth of that recursion. *)
Fixpoint api_request (fuel : nat) (config : Config) : Async Response :=
  match fuel with
  | O => λ w, (OutOfFuel, w)
  | S fuel' =>
      config ← request_interceptor config;
      try_catch (dispatchRequest config) (response_interceptor (api_request fuel'))
  end.

(** A request and its one possible re-issue: depth two (see
    [api_request_fuel]). *)
Definition api : Config → Async Response := api_request 2.

Definition api_get (url : string) : Async Response :=
  api (mkConfig GET url None false ∅).

Definition api_post (url : string) (data : gmap string Js.Val) : Async Response :=
  api (mkConfig POST url None false data).

End Client.

Module authService.
Section Service.

Context (backend : Backend).

Definition login (email password role : string) : Async (gmap string Js.Val) :=
  response ← api_post backend "/auth/token/"
    {[ "email" := Js.Str email; "password" := Js.Str password; "role" := Js.Str role ]};
  mret (body response).

Definition register (userData : gmap string Js.Val) : Async (gmap string Js.Val) :=
  response ← api_post backend "/auth/register/" userData;
  mret (body response).

(** No remote call is made: the [try] block is empty. *)
Definition logout : Async unit :=
  try_finally (mret ())
    (SecureStore.deleteItemAsync "access_token";;
     SecureStore.deleteItemAsync "refresh_token").

Definition getProfile : Async (gmap string Js.Val) :=
  response ← api_get backend "/auth/profile/";
  mret (body response).

End Service.
End authService.

(** ** [src/hooks/useAuth.ts] *)

Inductive UserRole := client | designer.

Definition role_text (r : UserRole) : string :=
  match r with
  | client => "client"
  | designer => "designer"
  end.

Module User.
Record t := mk {
  id : Js.Val;
  email : Js.Val;
  role : UserRole;
  firstName : Js.Val;
  isActive : bool;
  lastName : Js.Val;      (* [Undefined] when the property is not set *)
  phone : Js.Val;
  user_type : Js.Val
}.
End User.

Definition ACCESS_TOKEN_KEY := "access_token".
Definition REFRESH_TOKEN_KEY := "refresh_token".
Definition USER_SESSION := "current_user".
Definition ROLE_KEY := "userRole".
Definition AUTH_KEY := "isLoggedIn".

(** What the client hands to [JSON.stringify]. *)
Inductive Json :=
| JsonUser (user : User.t)
| JsonObject (o : gmap string Js.Val).

Record LoginResult := mkLoginResult {
  success : bool;
  message : Js.Val;
  user : option User.t
}.

Section Session.

Context (backend : Backend).
Context (JSON_stringify : Json → string).

Definition setAuthTokens (tokens : Js.Val * Js.Val) : Async unit :=
  SecureStore.setItemAsync ACCESS_TOKEN_KEY tokens.1;;
  SecureStore.setItemAsync REFRESH_TOKEN_KEY tokens.2.

Definition clearAuthTokens : Async unit :=
  SecureStore.deleteItemAsync ACCESS_TOKEN_KEY;;
  SecureStore.deleteItemAsync REFRESH_TOKEN_KEY;;
  SecureStore.deleteItemAsync USER_SESSION.

Definition setUserSession (user : User.t) (tokens : option (Js.Val * Js.Val)) : Async unit :=
  match tokens with
  | Some tokens => setAuthTokens tokens
  | None => mret ()
  end;;
  SecureStore.setItemAsync USER_SESSION (Js.Str (JSON_stringify (JsonUser user)));;
  AsyncStorage.setItem USER_SESSION (JSON_stringify (JsonUser user));;
  AsyncStorage.setItem ROLE_KEY (role_text (User.role user));;
  AsyncStorage.setItem AUTH_KEY "true".

Definition isLoggedIn : Async bool :=
  try_catch
    (accessToken ← SecureStore.getItemAsync ACCESS_TOKEN_KEY;
     localStatus ← AsyncStorage.getItem AUTH_KEY;
     mret (Js.truthy accessToken || Js.is_str localStatus "true"))
    (λ _, mret false).

Definition logout : Async unit :=
  try_finally
    (try_catch authService.logout (λ _, mret ()))
    (clearAuthTokens;;
     AsyncStorage.multiRemove [ROLE_KEY; AUTH_KEY; USER_SESSION];;
     router_replace "/login").

(** The role kept for a session: [backendRole] when it is one of the two
    roles, ['client'] otherwise. *)
Definition userRole_of (backendRole : Js.Val) : UserRole :=
  if Js.is_str backendRole "client" then client
  else if Js.is_str backendRole "designer" then designer
  else client.

(** The user record built from a profile response. *)
Definition profile_user (profile : gmap string Js.Val) (email : string) (role : UserRole) : User.t :=
  let backendRole := Js.or (prop profile "user_type") (Js.Str (role_text role)) in
  let userRole := userRole_of backendRole in
  {| User.id := Js.or (prop profile "id") (Js.Str "temp-id");
     User.email := Js.or (prop profile "email") (Js.Str email);
     User.role := userRole;
     User.firstName := Js.or (prop profile "first_name") (Js.Str (Js.split_head "@"%char email));
     User.isActive := true;
     User.lastName := Js.or (prop profile "last_name") (Js.Str "");
     User.phone := Js.or (prop profile "phone") (Js.Str "");
     User.user_type := backendRole |}.

(** The user record built when the profile fetch fails. *)
Definition fallback_user (email : string) (role : UserRole) : User.t :=
  {| User.id := Js.Str "temp-id";
     User.email := Js.Str email;
     User.role := role;
     User.firstName := Js.Str (Js.split_head "@"%char email);
     User.isActive := true;
     User.lastName := Js.Undefined;
     User.phone := Js.Undefined;
     User.user_type := Js.Str (role_text role) |}.

Definition redirectTo (userData : User.t) : string :=
  match User.role userData with
  | designer => "/(designer-tabs)/dashboard"
  | client => "/(tabs)/home"
  end.

(** The message of a failed login, from the error caught. *)
Definition login_error_message (error : Error) : Js.Val :=
  match error with
  | AxiosError _ (Some response) =>
      if has_data response then
        Js.or (Js.or (prop (body response) "detail") (prop (body response) "error"))
              (Js.Str (JSON_stringify (JsonObject (body response))))
      else Js.Str "Login failed. Please try again."
  | AxiosError _ None => Js.Str "No response from server. Please check your connection."
  | StoreError => Js.Str "Login failed. Please try again."
  end.

Definition login (email password : string) (role : UserRole) : Async LoginResult :=
  try_catch
    (response ← authService.login backend email password (role_text role);
     SecureStore.setItemAsync "access_token" (prop response "access");;
     SecureStore.setItemAsync "refresh_token" (prop response "refresh");;
     userData ← try_catch
       (profileResponse ← api_get backend "/auth/profile/";
        mret (profile_user (body profileResponse) email role))
       (λ _, mret (fallback_user email role));
     setUserSession userData (Some (prop response "access", prop response "refresh"));;
     router_replace (redirectTo userData);;
     mret (mkLoginResult true (Js.Str "Login successful") (Some userData)))
    (λ error, mret (mkLoginResult false (login_error_message error) None)).

Definition refreshAccessToken : Async Js.Val :=
  try_catch
    (refreshToken ← SecureStore.getItemAsync REFRESH_TOKEN_KEY;
     if negb (Js.truthy refreshToken) then mret Js.Null
     else
       response ← api_post backend "/auth/token/refresh/" {[ "refresh" := refreshToken ]};
       SecureStore.setItemAsync ACCESS_TOKEN_KEY (prop (body response) "access");;
       (if Js.truthy (prop (body response) "refresh")
        then SecureStore.setItemAsync REFRESH_TOKEN_KEY (prop (body response) "refresh")
        else mret ());;
       mret (prop (body response) "access"))
    (λ _, clearAuthTokens;; mret Js.Null).

End Session.

(** ** The rest of [src/hooks/useAuth.ts] *)

(** The argument of [register]; the optional fields are [None] when
    the property is not given. *)
Module RegisterData.
Record t := mk {
  email : string;
  password : string;
  role : UserRole;
  firstName : option string;
  lastName : option string;
  phoneNumber : option string
}.
End RegisterData.

Record RegisterResult := mkRegisterResult {
  reg_success : bool;
  reg_message : Js.Val;
  reg_user : Js.Val     (* [response.user], [Undefined] on the failure path *)
}.

(** [[k]: v] when the optional property is given. *)
Definition with_optional (k : string) (v : option string) (o : gmap string Js.Val) :
    gmap string Js.Val :=
  match v with
  | Some s => <[k := Js.Str s]> o
  | None => o
  end.

(** The JSON body made of the argument of [register]. *)
Definition register_body (userData : RegisterData.t) : gmap string Js.Val :=
  with_optional "firstName" (RegisterData.firstName userData)
    (with_optional "lastName" (RegisterData.lastName userData)
       (with_optional "phoneNumber" (RegisterData.phoneNumber userData)
          {[ "email" := Js.Str (RegisterData.email userData);
             "password" := Js.Str (RegisterData.password userData);
             "role" := Js.Str (role_text (RegisterData.role userData)) ]})).

(** The user record [register] stores when the response has a pair. *)
Definition registered_user (userData : RegisterData.t) : User.t :=
  {| User.id := Js.Str "temp-id";
     User.email := Js.Str (RegisterData.email userData);
     User.role := RegisterData.role userData;
     User.firstName :=
       Js.or (from_option Js.Str Js.Undefined (RegisterData.firstName userData))
             (Js.Str (Js.split_head "@"%char (RegisterData.email userData)));
     User.isActive := true;
     User.lastName := Js.Undefined;
     User.phone := Js.Undefined;
     User.user_type := Js.Undefined |}.

Section Registration.

Context (backend : Backend).
Context (JSON_stringify : Json → string).
(** [JSON.parse] on a stored session: [None] when it throws or gives
    [null]; [getCurrentUser] answers [null] in both cases. *)
Context (JSON_parse : string → option User.t).

Definition getCurrentUser : Async (option User.t) :=
  try_catch
    (secure ← SecureStore.getItemAsync USER_SESSION;
     userJson ← (if Js.truthy secure then mret secure
                 else AsyncStorage.getItem USER_SESSION);
     if Js.truthy userJson then mret (JSON_parse (Js.text userJson)) else mret None)
    (λ _, mret None).

Definition getUserRole : Async (option UserRole) :=
  role ← AsyncStorage.getItem ROLE_KEY;
  if Js.is_str role "client" then mret (Some client)
  else if Js.is_str role "designer" then mret (Some designer)
  else mret None.

(** The message of a failed registration, from the error caught. *)
Definition register_error_message (error : Error) : Js.Val :=
  match error with
  | AxiosError _ (Some response) =>
      if has_data response then
        Js.or (Js.or (prop (body response) "detail") (prop (body response) "error"))
              (Js.Str (JSON_stringify (JsonObject (body response))))
      else Js.Str "Registration failed. Please try again."
  | _ => Js.Str "Registration failed. Please try again."
  end.

Definition register (userData : RegisterData.t) : Async RegisterResult :=
  try_catch
    (response ← authService.register backend (register_body userData);
     (if Js.truthy (prop response "access") && Js.truthy (prop response "refresh")
      then
        setUserSession JSON_stringify (registered_user userData)
          (Some (prop response "access", prop response "refresh"));;
        router_replace
          (match RegisterData.role userData with
           | designer => "/(designer-tabs)/dashboard"
           | client => "/(tabs)/home"
           end)
      else mret ());;
     mret (mkRegisterResult true (Js.Str "Registration successful") (prop response "user")))
    (λ error, mret (mkRegisterResult false (register_error_message error) Js.Undefined)).

End Registration.

(** [hashPassword]: the SHA-256 digest of the UTF-8 bytes of the
    password, written as two lower-case hexadecimal digits per byte. *)
Module Hex.

Definition digit (n : N) : ascii :=
  match n with
  | 0%N => "0" | 1%N => "1" | 2%N => "2" | 3%N => "3" | 4%N => "4" | 5%N => "5"
  | 6%N => "6" | 7%N => "7" | 8%N => "8" | 9%N => "9" | 10%N => "a" | 11%N => "b"
  | 12%N => "c" | 13%N => "d" | 14%N => "e" | _ => "f"
  end%char.

(** [b.toString(16)] for an element [b] of a [Uint8Array]. *)
Definition toString16 (b : Byte.byte) : string :=
  let n := Byte.to_N b in
  if (n <? 16)%N then String (digit n) ""
  else String (digit (n / 16)) (String (digit (n mod 16)) "").

(** [s.padStart(n, fill)] for a one-character [fill]. *)
Definition padStart (n : nat) (fill : ascii) (s : string) : string :=
  String.concat "" (replicate (n - String.length s) (String fill "")) +:+ s.

(** [bytes.map(b => b.toString(16).padStart(2, '0')).join('')] *)
Definition encode (bytes : list Byte.byte) : string :=
  String.concat "" (map (λ b, padStart 2 "0" (toString16 b)) bytes).

End Hex.

Section HashPassword.

Context (TextEncoder_encode : string → list Byte.byte).
Context (SHA256 : list Byte.byte → list Byte.byte).

Definition hashPassword (password : string) : Async string :=
  let data := TextEncoder_encode password in
  let hashBuffer := SHA256 data in
  mret (Hex.encode hashBuffer).

End HashPassword.

(** ** The rest of [src/services/api.ts]: resources addressed by id *)

Section Resources.

Context (backend : Backend).

Definition api_patch (url : string) (data : gmap string Js.Val) : Async Response :=
  api backend (mkConfig PATCH url None false data).

Definition api_delete (url : string) : Async Response :=
  api backend (mkConfig DELETE url None false ∅).

End Resources.

Module designService.
Section Service.

Context (backend : Backend).

Definition getDesign (id : string) : Async (gmap string Js.Val) :=
  response ← api_get backend ("/designs/" +:+ id +:+ "/");
  mret (body response).

Definition updateDesign (id : string) (designData : gmap string Js.Val) :
    Async (gmap string Js.Val) :=
  response ← api_patch backend ("/designs/" +:+ id +:+ "/") designData;
  mret (body response).

Definition deleteDesign (id : string) : Async unit :=
  api_delete backend ("/designs/" +:+ id +:+ "/");;
  mret ().

End Service.
End designService.

Module bookingService.
Section Service.

Context (backend : Backend).

Definition createBooking (bookingData : gmap string Js.Val) : Async (gmap string Js.Val) :=
  response ← api_post backend "/bookings/" bookingData;
  mret (body response).

Definition updateBooking (id : string) (bookingData : gmap string Js.Val) :
    Async (gmap string Js.Val) :=
  response ← api_patch backend ("/bookings/" +:+ id +:+ "/") bookingData;
  mret (body response).

Definition cancelBooking (id : string) : Async unit :=
  api_delete backend ("/bookings/" +:+ id +:+ "/");;
  mret ().

End Service.
End bookingService.

(** * Vocabulary of the statements *)

(** The request the interceptor's refresh makes. *)
Definition refresh_call (refreshToken : Js.Val) : Call :=
  AxiosDispatch
    (mkConfig POST (API_BASE_URL +:+ "/auth/token/refresh/") None false
       {[ "refresh" := refreshToken ]}).

(** The config the request interceptor hands to the dispatch. *)
Definition outgoing (config : Config) (w : World) : Config :=
  match request_interceptor config w with
  | (Ok c, _) => c
  | _ => config
  end.

(** How axios settles a request, from the server's answer. *)
Definition settled (config : Config) (answer : option Response) : Outcome Response :=
  match answer with
  | Some response =>
      if validateStatus (status response) then Ok response
      else Throw (AxiosError config (Some response))
  | None => Throw (AxiosError config None)
  end.

(** The answer makes axios reject the request. *)
Definition rejects (answer : option Response) : bool :=
  match answer with
  | Some response => negb (validateStatus (status response))
  | None => true
  end.

Definition sent (c : Call) (w : World) : World :=
  mkWorld (secureStore w) (asyncStorage w) (wire w ++ [c]) (router w).

Definition with_secureStore (m : gmap string string) (w : World) : World :=
  mkWorld m (asyncStorage w) (wire w) (router w).

(** A string token, or no token at all. *)
Definition optional_token (v : Js.Val) : Prop :=
  Js.truthy v = true → ∃ s, v = Js.Str s.

(** The world after a successful refresh made for a request dispatched
    as [c1]. *)
Definition refreshed_world (c1 : Config) (refreshToken : string) (refreshed : Response)
    (w : World) : World :=
  with_secureStore
    ((if Js.truthy (prop (body refreshed) "refresh")
      then <["refresh_token" := Js.text (prop (body refreshed) "refresh")]>
      else id) (<["access_token" := Js.text (prop (body refreshed) "access")]> (secureStore w)))
    (sent (refresh_call (Js.Str refreshToken)) (sent (ApiDispatch c1) w)).

(** The request [authService.login] hands to the instance. *)
Definition login_request (email password : string) (role : UserRole) : Config :=
  mkConfig POST "/auth/token/" None false
    {[ "email" := Js.Str email; "password" := Js.Str password;
       "role" := Js.Str (role_text role) ]}.

(** The world once the token call [request] has been answered and the
    pair it returned is stored. *)
Definition tokens_stored (access refresh : string) (request : Config) (w : World) : World :=
  with_secureStore
    (<["refresh_token" := refresh]> (<["access_token" := access]> (secureStore w)))
    (sent (ApiDispatch request) w).

(** The world once [setUserSession] has stored a session and the router
    has been sent to [target]. *)
Definition session_stored (json : string) (role : UserRole) (access refresh : string)
    (target : string) (w : World) : World :=
  mkWorld
    (<["current_user" := json]>
       (<["refresh_token" := refresh]> (<["access_token" := access]> (secureStore w))))
    (<["isLoggedIn" := "true"]>
       (<["userRole" := role_text role]> (<["current_user" := json]> (asyncStorage w))))
    (wire w)
    (router w ++ [target]).

(** The request [refreshAccessToken] hands to the instance. *)
Definition refresh_request (refreshToken : Js.Val) : Config :=
  mkConfig POST "/auth/token/refresh/" None false {[ "refresh" := refreshToken ]}.

(** The request [authService.register] hands to the instance. *)
Definition register_request (userData : RegisterData.t) : Config :=
  mkConfig POST "/auth/register/" None false (register_body userData).

(** The request sent for the design [id], by [method]. *)
Definition design_request (m : Method) (id : string) (data : gmap string Js.Val) : Config :=
  mkConfig m ("/designs/" +:+ id +:+ "/") None false data.

(** The request sent for the booking [id], by [method]. *)
Definition booking_request (m : Method) (id : string) (data : gmap string Js.Val) : Config :=
  mkConfig m ("/bookings/" +:+ id +:+ "/") None false data.

(** A lower-case hexadecimal digit, and its value. *)
Definition is_lower_hex (c : ascii) : bool :=
  bool_decide (c ∈ ["0"; "1"; "2"; "3"; "4"; "5"; "6"; "7"; "8"; "9";
                    "a"; "b"; "c"; "d"; "e"; "f"]%char).

Definition hex_value (c : ascii) : N :=
  match c with
  | "0" => 0 | "1" => 1 | "2" => 2 | "3" => 3 | "4" => 4 | "5" => 5 | "6" => 6
  | "7" => 7 | "8" => 8 | "9" => 9 | "a" => 10 | "b" => 11 | "c" => 12
  | "d" => 13 | "e" => 14 | _ => 15
  end%char%N.

(** The first call an operation puts on the wire. *)
Definition first_call {A} (m : Async A) (w : World) : option Call :=
  (wire (m w).2) !! length (wire w).

(** * Scenarios *)

Module Scenario.

Definition unauthorized : Response := mkResponse 401 ∅.
Definition designs : Response := mkResponse 200 ∅.
Definition minted : Response := mkResponse 200 {[ "access" := Js.Str "access-2" ]}.
Definition token_pair : Response :=
  mkResponse 200 {[ "access" := Js.Str "access-1"; "refresh" := Js.Str "refresh-1" ]}.
Definition no_account : Response :=
  mkResponse 401 {[ "detail" := Js.Str "No active account found" ]}.
Definition profile (user_type : string) : Response :=
  mkResponse 200 {[ "user_type" := Js.Str user_type ]}.

(** The stored access token has expired: only the token the refresh
    endpoint mints is accepted. *)
Definition expired_backend : Backend := λ _ call,
  match call with
  | ApiDispatch config =>
      if bool_decide (Authorization config = Some "Bearer access-2")
      then Some designs else Some unauthorized
  | AxiosDispatch _ => Some minted
  end.

(** The account is revoked: tokens are still minted, none is accepted. *)
Definition revoked_backend : Backend := λ _ call,
  match call with
  | ApiDispatch _ => Some unauthorized
  | AxiosDispatch _ => Some minted
  end.

(** The refresh token has expired as well. *)
Definition closed_backend : Backend := λ _ _, Some unauthorized.

(** A backend for [login]: the token endpoint gives a pair, the profile
    is served to requests that carry a bearer header. *)
Definition login_backend (user_type : string) : Backend := λ _ call,
  match call with
  | ApiDispatch config =>
      if String.eqb (url config) "/auth/token/" then Some token_pair
      else if String.eqb (url config) "/auth/profile/" then
        match Authorization config with
        | Some _ => Some (profile user_type)
        | None => Some unauthorized
        end
      else Some unauthorized
  | AxiosDispatch _ => Some minted
  end.

(** The token endpoint works, nothing else answers. *)
Definition profile_down_backend : Backend := λ _ call,
  match call with
  | ApiDispatch config =>
      if String.eqb (url config) "/auth/token/" then Some token_pair else None
  | AxiosDispatch _ => None
  end.

(** Wrong credentials. *)
Definition refusing_backend : Backend := λ _ _, Some no_account.

Definition logged_out : World := mkWorld ∅ ∅ [] [].

Definition logged_in : World :=
  mkWorld
    {[ "access_token" := "access-1"; "refresh_token" := "refresh-1";
       "current_user" := "{user}" ]}
    {[ "current_user" := "{user}"; "userRole" := "client"; "isLoggedIn" := "true" ]}
    [] [].

Definition get_designs : Config := mkConfig GET "/designs/" None false ∅.
Definition get_profile : Config := mkConfig GET "/auth/profile/" None false ∅.

(** A stand-in for [JSON.stringify]. *)
Definition stringify (j : Json) : string :=
  match j with
  | JsonUser user => "{role:" +:+ role_text (User.role user) +:+ "}"
  | JsonObject _ => "{}"
  end.

End Scenario.

Import Scenario.

(** Further scenarios. *)
Module Cases.

Definition server_error : Response := mkResponse 500 ∅.
Definition rotated : Response :=
  mkResponse 200 {[ "access" := Js.Str "access-2"; "refresh" := Js.Str "refresh-2" ]}.
Definition created_with_session : Response :=
  mkResponse 201 {[ "access" := Js.Str "access-1"; "refresh" := Js.Str "refresh-1";
                    "user" := Js.Str "a@b.com" ]}.
Definition created : Response := mkResponse 201 {[ "user" := Js.Str "a@b.com" ]}.

Definition failing_backend : Backend := λ _ _, Some server_error.
Definition rotating_backend : Backend := λ _ _, Some rotated.
Definition registering_backend : Backend := λ _ _, Some created_with_session.
Definition pending_backend : Backend := λ _ _, Some created.

(** A secure store with a session record and no token. *)
Definition tokenless : World :=
  mkWorld {[ "current_user" := "{user}" ]} {[ "isLoggedIn" := "true" ]} [] [].

Definition newcomer : RegisterData.t :=
  RegisterData.mk "a@b.com" "pw" designer None None None.

(** An empty text stored as access token. *)
Definition blank_token : World := mkWorld {[ "access_token" := "" ]} ∅ [] [].

(** An answer without body. *)
Definition bare_error : Response := mkAnswer 500 None.
Definition bare_backend : Backend := λ _ _, Some bare_error.

(** A backend that wants a bearer header on everything, registration
    included, and accepts any; the refresh endpoint mints a token. *)
Definition guarded_backend : Backend := λ _ call,
  match call with
  | ApiDispatch config =>
      match Authorization config with
      | Some _ => Some created
      | None => Some unauthorized
      end
  | AxiosDispatch _ => Some minted
  end.

(** A stand-in for [JSON.parse]. *)
Definition parse (s : string) : option User.t :=
  if String.eqb s "{role:designer}" then Some (fallback_user "a@b.com" designer) else None.

End Cases.

Import Cases.

(** * Properties *)

(** ** Running the primitives *)

Ltac unfold_async :=
  unfold mbind, Async_bind, mret, Async_ret, try_catch, try_finally, throw in *.

Ltac unfold_store :=
  unfold SecureStore.getItemAsync, SecureStore.setItemAsync, SecureStore.deleteItemAsync,
    AsyncStorage.getItem, AsyncStorage.setItem, AsyncStorage.multiRemove, router_replace in *.

Lemma bind_Ok {A B} (m : Async A) (k : A → Async B) w a w' :
  m w = (Ok a, w') → (m ≫= k) w = k a w'.
Proof. intros H. unfold_async. by rewrite H. Qed.

Lemma bind_Throw {A B} (m : Async A) (k : A → Async B) w e w' :
  m w = (Throw e, w') → (m ≫= k) w = (Throw e, w').
Proof. intros H. unfold_async. by rewrite H. Qed.

Lemma try_catch_Ok {A} (m : Async A) h w a w' :
  m w = (Ok a, w') → try_catch m h w = (Ok a, w').
Proof. intros H. unfold try_catch. by rewrite H. Qed.

Lemma try_catch_Throw {A} (m : Async A) h w e w' :
  m w = (Throw e, w') → try_catch m h w = h e w'.
Proof. intros H. unfold try_catch. by rewrite H. Qed.

(** ** Strings *)

Lemma append_String c (s t : string) : String c s +:+ t = String c (s +:+ t).
Proof. reflexivity. Qed.

Lemma append_empty (t : string) : "" +:+ t = t.
Proof. reflexivity. Qed.

Lemma prefix_app (p s : string) :
  String.prefix p s = true ↔ ∃ t, s = p +:+ t.
Proof.
  revert s. induction p as [|c p IH]; intros s.
  - split; [intros _; by exists s | by destruct s].
  - destruct s as [|d s]; simpl; [split; [done | by intros [t ?]] |].
    setoid_rewrite append_String.
    destruct (Ascii.ascii_dec c d) as [->|Hne].
    + rewrite IH. split; intros [t Ht]; exists t; congruence.
    + split; [done | intros [t Ht]; congruence].
Qed.

Lemma includes_unfold (s pat : string) :
  Js.includes s pat =
    if String.prefix pat s then true
    else match s with
         | EmptyString => false
         | String _ s' => Js.includes s' pat
         end.
Proof. by destruct s. Qed.

(** [s.includes(pat)] holds exactly when [pat] occurs in [s]. *)
Lemma includes_spec (s pat : string) :
  Js.includes s pat = true ↔ ∃ pre post, s = pre +:+ pat +:+ post.
Proof.
  induction s as [|c s IH]; rewrite includes_unfold.
  - destruct (String.prefix pat "") eqn:Hp.
    + split; [intros _ | done]. apply prefix_app in Hp as [t Ht]. by exists "", t.
    + split; [done | intros ([|??] & post & H)]; [| done].
      rewrite append_empty in H.
      assert (String.prefix pat "" = true) by (apply prefix_app; eauto). congruence.
  - destruct (String.prefix pat (String c s)) eqn:Hp.
    + split; [intros _ | done]. apply prefix_app in Hp as [t Ht]. by exists "", t.
    + rewrite IH. split.
      * intros (pre & post & ->). by exists (String c pre), post.
      * intros ([|d pre] & post & H).
        -- rewrite append_empty in H.
           assert (String.prefix pat (String c s) = true) by (apply prefix_app; eauto). congruence.
        -- rewrite append_String in H. injection H as -> ->. eauto.
Qed.

(** Every URL of the token endpoints lies in the authentication namespace. *)
Lemma includes_auth_token_auth (s : string) :
  Js.includes s "/auth/token/" = true → Js.includes s "/auth/" = true.
Proof.
  rewrite !includes_spec. intros (pre & post & ->).
  by exists pre, ("token/" +:+ post).
Qed.

(** ** The interceptors *)

Section Interceptors.

Context (backend : Backend).

Lemma request_interceptor_run config w :
  request_interceptor config w = (Ok (outgoing config w), w).
Proof.
  unfold outgoing, request_interceptor.
  destruct (Js.includes _ _); [done |].
  unfold_async. unfold_store. by destruct (Js.truthy _).
Qed.

Lemma outgoing_fields config w :
  method (outgoing config w) = method config
  ∧ url (outgoing config w) = url config
  ∧ _retry (outgoing config w) = _retry config
  ∧ data (outgoing config w) = data config.
Proof.
  unfold outgoing, request_interceptor.
  destruct (Js.includes _ _); [done |].
  unfold_async. unfold_store. by destruct (Js.truthy _).
Qed.

Lemma outgoing_auth config w :
  Js.includes (url config) "/auth/" = true → outgoing config w = config.
Proof. intros H. unfold outgoing, request_interceptor. by rewrite H. Qed.

Lemma outgoing_bearer config w token :
  Js.includes (url config) "/auth/" = false →
  secureStore w !! "access_token" = Some token → token ≠ "" →
  outgoing config w = set_Authorization ("Bearer " +:+ token) config.
Proof.
  intros H Ht Hne. unfold outgoing, request_interceptor. rewrite H.
  unfold_async. unfold_store. rewrite Ht. simpl.
  by destruct (String.eqb_spec token "").
Qed.

Lemma settle_run c config w :
  settle backend c config w = (settled config (backend (wire w) c), sent c w).
Proof. unfold settle, settled, sent. by repeat case_match. Qed.

(** The refresh block always completes: its [catch] clause swallows
    every error. It sends at most one call, the refresh. *)
Lemma refresh_block_completes originalRequest w :
  ∃ again w' calls,
    refresh_block backend originalRequest w = (Ok again, w')
    ∧ wire w' = wire w ++ calls
    ∧ asyncStorage w' = asyncStorage w
    ∧ router w' = router w
    ∧ (calls = [] ∨ ∃ token, calls = [refresh_call token])
    ∧ (∀ request, again = Some request →
         _retry request = _retry originalRequest
         ∧ url request = url originalRequest
         ∧ method request = method originalRequest).
Proof.
  pose proof (settle_run (refresh_call (Js.of_item (secureStore w !! "refresh_token")))) as Hs.
  unfold refresh_call in Hs.
  unfold refresh_block, axios_post. unfold_async. unfold_store.
  destruct (Js.truthy _).
  - rewrite Hs. unfold settled.
    destruct (backend _ _) as [r|]; [destruct (validateStatus _) |];
      [destruct (prop (body r) "access");
       destruct (Js.truthy (prop (body r) "refresh"));
       destruct (prop (body r) "refresh") | |];
      cbn [sent secureStore asyncStorage wire router];
      eexists _, _, [_]; (split; [reflexivity |]);
      cbn [secureStore asyncStorage wire router];
      (split_and!; [done | done | done | right; by eexists | ]);
      intros request [= <-]; done.
  - exists None, w, []. rewrite app_nil_r. split_and!; [done .. | by left | done].
Qed.

Lemma refresh_block_skips originalRequest w :
  Js.truthy (Js.of_item (secureStore w !! "refresh_token")) = false →
  refresh_block backend originalRequest w = (Ok None, w).
Proof.
  intros H. unfold refresh_block. unfold_async. unfold_store. by rewrite H.
Qed.

Lemma refresh_block_success originalRequest w refreshToken refreshed access :
  secureStore w !! "refresh_token" = Some refreshToken → refreshToken ≠ "" →
  backend (wire w) (refresh_call (Js.Str refreshToken)) = Some refreshed →
  validateStatus (status refreshed) = true →
  prop (body refreshed) "access" = Js.Str access →
  optional_token (prop (body refreshed) "refresh") →
  refresh_block backend originalRequest w =
    (Ok (Some (set_Authorization ("Bearer " +:+ access) originalRequest)),
     with_secureStore
       ((if Js.truthy (prop (body refreshed) "refresh")
         then <["refresh_token" := Js.text (prop (body refreshed) "refresh")]>
         else id) (<["access_token" := access]> (secureStore w)))
       (sent (refresh_call (Js.Str refreshToken)) w)).
Proof.
  intros Hrt Hne Hb Hv Ha Hr.
  unfold refresh_block, axios_post. unfold_async. unfold_store.
  rewrite Hrt. simpl. destruct (String.eqb_spec refreshToken ""); [done |]. simpl.
  rewrite settle_run. fold (refresh_call (Js.Str refreshToken)). rewrite Hb.
  unfold settled. rewrite Hv, Ha. simpl.
  destruct (Js.truthy (prop (body refreshed) "refresh")) eqn:Ht; [| done].
  destruct (Hr Ht) as [s ->]. done.
Qed.

Lemma refresh_block_failure originalRequest w refreshToken :
  secureStore w !! "refresh_token" = Some refreshToken → refreshToken ≠ "" →
  rejects (backend (wire w) (refresh_call (Js.Str refreshToken))) = true →
  refresh_block backend originalRequest w =
    (Ok None,
     with_secureStore
       (delete "refresh_token" (delete "access_token" (secureStore w)))
       (sent (refresh_call (Js.Str refreshToken)) w)).
Proof.
  intros Hrt Hne Hb.
  unfold refresh_block, axios_post. unfold_async. unfold_store.
  rewrite Hrt. simpl. destruct (String.eqb_spec refreshToken ""); [done |]. simpl.
  rewrite settle_run. fold (refresh_call (Js.Str refreshToken)).
  destruct (backend _ _) as [r|]; simpl in *; [| done].
  by destruct (validateStatus _).
Qed.

(** ** The instance *)

Lemma api_request_S n config w :
  api_request backend (S n) config w =
    try_catch (dispatchRequest backend (outgoing config w))
              (response_interceptor backend (api_request backend n)) w.
Proof.
  simpl. by rewrite (bind_Ok _ _ _ _ _ (request_interceptor_run config w)).
Qed.

(** A request already marked is dispatched and settled, whatever the
    answer: the response interceptor lets its error through. *)
Lemma api_request_retried n config w :
  _retry config = true →
  api_request backend (S n) config w =
    (settled (outgoing config w) (backend (wire w) (ApiDispatch (outgoing config w))),
     sent (ApiDispatch (outgoing config w)) w).
Proof.
  intros Hr. rewrite api_request_S. unfold try_catch, dispatchRequest.
  rewrite settle_run. unfold settled.
  destruct (backend _ _) as [r|]; [destruct (validateStatus _); [done |] |];
    unfold response_interceptor;
    destruct (outgoing_fields config w) as (_ & _ & -> & _); rewrite Hr;
    by rewrite andb_false_r.
Qed.

(** Two levels of recursion are all the instance ever uses. *)
Lemma api_request_fuel n config w :
  api_request backend (S (S n)) config w = api backend config w.
Proof.
  unfold api. rewrite !api_request_S. unfold try_catch.
  destruct (dispatchRequest _ _ _) as [[r|e|] w1]; try done.
  unfold response_interceptor. destruct e as [c r|]; [| done].
  destruct (_ && _); [| done].
  destruct (refresh_block_completes (set_retry c) w1)
    as (again & w2 & calls & Hrun & _ & _ & _ & _ & Hagain).
  rewrite !(bind_Ok _ _ _ _ _ Hrun).
  destruct again as [request|]; [| done].
  destruct (Hagain request eq_refl) as (Hretry & _).
  by rewrite !api_request_retried.
Qed.

Lemma api_terminates config w : (api backend config w).1 ≠ OutOfFuel.
Proof.
  unfold api. rewrite api_request_S. unfold try_catch, dispatchRequest.
  rewrite settle_run.
  destruct (settled _ _) as [r|e|] eqn:Hs; [done | |].
  - unfold response_interceptor. destruct e as [c r|]; [| done].
    destruct (_ && _); [| done].
    destruct (refresh_block_completes (set_retry c) (sent (ApiDispatch (outgoing config w)) w))
      as (again & w2 & calls & Hrun & _ & _ & _ & _ & Hagain).
    rewrite (bind_Ok _ _ _ _ _ Hrun).
    destruct again as [request|]; [| done].
    destruct (Hagain request eq_refl) as (Hretry & _).
    rewrite api_request_retried by done. simpl.
    unfold settled. by repeat case_match.
  - unfold settled in Hs. by repeat case_match.
Qed.

(** The instance, flattened: one dispatch; on a 401 to a request not yet
    marked and not to a token endpoint, the refresh block, and then
    either the original error or the re-issued request, settled as is. *)
Lemma api_unfold config w :
  api backend config w =
    let c1 := outgoing config w in
    let a1 := backend (wire w) (ApiDispatch c1) in
    let w1 := sent (ApiDispatch c1) w in
    if status_is_401 a1 && negb (_retry c1) && negb (Js.includes (url c1) "/auth/token/")
    then
      match refresh_block backend (set_retry c1) w1 with
      | (Ok (Some request), w2) =>
          (settled (outgoing request w2) (backend (wire w2) (ApiDispatch (outgoing request w2))),
           sent (ApiDispatch (outgoing request w2)) w2)
      | (Ok None, w2) => (Throw (AxiosError (set_retry c1) a1), w2)
      | (Throw e, w2) => (Throw e, w2)
      | (OutOfFuel, w2) => (OutOfFuel, w2)
      end
    else (settled c1 a1, w1).
Proof.
  unfold api. rewrite api_request_S. unfold try_catch, dispatchRequest.
  rewrite settle_run. cbv zeta. unfold settled at 1 3.
  destruct (backend (wire w) _) as [r|] eqn:Ha.
  - destruct (validateStatus (status r)) eqn:Hv.
    + unfold status_is_401. replace (status r =? 401)%Z with false; [done |].
      unfold validateStatus in Hv. lia.
    + unfold response_interceptor.
      destruct (_ && _) eqn:Hg; [| done].
      destruct (refresh_block_completes (set_retry (outgoing config w))
                  (sent (ApiDispatch (outgoing config w)) w))
        as (again & w2 & calls & Hrun & _ & _ & _ & _ & Hagain).
      rewrite (bind_Ok _ _ _ _ _ Hrun), Hrun.
      destruct again as [request|]; [| done].
      destruct (Hagain request eq_refl) as (Hretry & _).
      by rewrite api_request_retried.
  - by unfold response_interceptor.
Qed.

Lemma is_refresh_post_refresh_call token : is_refresh_post (refresh_call token) = true.
Proof. reflexivity. Qed.

Lemma not_refresh_post config :
  Js.includes (url config) "/auth/token/" = false →
  is_refresh_post (ApiDispatch config) = false.
Proof.
  intros H. unfold is_refresh_post, wire_url, wire_method.
  destruct (String.eqb_spec (API_BASE_URL +:+ url config)
              (API_BASE_URL +:+ "/auth/token/refresh/")) as [Heq|]; [| by rewrite andb_false_r].
  cbv [API_BASE_URL String.append] in Heq. simplify_eq.
  rewrite Heq in H. vm_compute in H. done.
Qed.

Lemma refresh_posts_app l1 l2 : refresh_posts (l1 ++ l2) = refresh_posts l1 + refresh_posts l2.
Proof. unfold refresh_posts. by rewrite filter_app, length_app. Qed.

Lemma refresh_posts_cons c l :
  refresh_posts (c :: l) = (if is_refresh_post c then 1 else 0) + refresh_posts l.
Proof.
  unfold refresh_posts. rewrite filter_cons.
  destruct (is_refresh_post c); by case_decide.
Qed.

Lemma refresh_posts_one c : refresh_posts [c] = if is_refresh_post c then 1 else 0.
Proof.
  unfold refresh_posts. rewrite filter_cons, filter_nil.
  destruct (is_refresh_post c); by case_decide.
Qed.

(** The re-issued request passes the request interceptor unchanged: the
    header the response interceptor gave it is the one of the token now
    stored. *)
Lemma outgoing_reissued config w access :
  secureStore w !! "access_token" = Some access →
  outgoing (set_Authorization ("Bearer " +:+ access) config) w =
    set_Authorization ("Bearer " +:+ access) config.
Proof.
  intros Ha. unfold outgoing, request_interceptor.
  destruct (Js.includes _ _); [done |].
  unfold_async. unfold_store. rewrite Ha. simpl.
  by destruct (String.eqb access "").
Qed.

(** The run of a request that is answered 401 and whose refresh succeeds. *)
Lemma api_refresh_run config w refreshToken r401 refreshed access :
  Js.includes (url config) "/auth/token/" = false →
  _retry config = false →
  secureStore w !! "refresh_token" = Some refreshToken → refreshToken ≠ "" →
  backend (wire w) (ApiDispatch (outgoing config w)) = Some r401 →
  status r401 = 401%Z →
  backend (wire w ++ [ApiDispatch (outgoing config w)]) (refresh_call (Js.Str refreshToken))
    = Some refreshed →
  validateStatus (status refreshed) = true →
  prop (body refreshed) "access" = Js.Str access →
  optional_token (prop (body refreshed) "refresh") →
  let retried := set_Authorization ("Bearer " +:+ access) (set_retry (outgoing config w)) in
  let w2 := refreshed_world (outgoing config w) refreshToken refreshed w in
  api backend config w =
    (settled retried (backend (wire w2) (ApiDispatch retried)), sent (ApiDispatch retried) w2).
Proof.
  intros Hurl Hretry Hrt Hne H401 Hs Hb Hv Ha Hr. cbv zeta.
  rewrite api_unfold. cbv zeta.
  destruct (outgoing_fields config w) as (_ & Hu & Hre & _).
  rewrite H401. simpl. rewrite Hs, Hu, Hre, Hretry, Hurl. simpl.
  rewrite (refresh_block_success _ _ refreshToken refreshed access) by done.
  unfold refreshed_world. rewrite Ha. simpl.
  rewrite outgoing_reissued; [done |]. simpl.
  destruct (Js.truthy _); simpl; [| by rewrite lookup_insert_eq].
  rewrite lookup_insert_ne by done. by rewrite lookup_insert_eq.
Qed.

(** A request to a token endpoint is dispatched as given and settled as
    answered. *)
Lemma api_token_endpoint config w :
  Js.includes (url config) "/auth/token/" = true →
  api backend config w =
    (settled config (backend (wire w) (ApiDispatch config)), sent (ApiDispatch config) w).
Proof.
  intros H. rewrite api_unfold. cbv zeta.
  rewrite outgoing_auth by by apply includes_auth_token_auth.
  by rewrite H, andb_false_r.
Qed.

(** Among a request that is not to a token endpoint, a refresh and
    the re-issue of the request, the refresh is the one POST to the
    refresh endpoint. *)
Lemma refresh_posts_reissue c1 token header :
  Js.includes (url c1) "/auth/token/" = false →
  refresh_posts
    [ApiDispatch c1; refresh_call token; ApiDispatch (set_Authorization header (set_retry c1))]
  = 1.
Proof.
  intros Hu. rewrite !refresh_posts_cons, is_refresh_post_refresh_call.
  by rewrite !not_refresh_post.
Qed.

(** The run of a request that is answered 401 and whose refresh fails. *)
Lemma api_refresh_failure_run config w refreshToken r401 :
  Js.includes (url config) "/auth/token/" = false →
  _retry config = false →
  secureStore w !! "refresh_token" = Some refreshToken → refreshToken ≠ "" →
  backend (wire w) (ApiDispatch (outgoing config w)) = Some r401 →
  status r401 = 401%Z →
  rejects (backend (wire w ++ [ApiDispatch (outgoing config w)])
             (refresh_call (Js.Str refreshToken))) = true →
  api backend config w =
    (Throw (AxiosError (set_retry (outgoing config w)) (Some r401)),
     with_secureStore
       (delete "refresh_token" (delete "access_token" (secureStore w)))
       (sent (refresh_call (Js.Str refreshToken)) (sent (ApiDispatch (outgoing config w)) w))).
Proof.
  intros Hurl Hretry Hrt Hne H401 Hs Hb.
  rewrite api_unfold. cbv zeta.
  destruct (outgoing_fields config w) as (_ & Hu & Hre & _).
  rewrite H401. simpl. rewrite Hs, Hu, Hre, Hretry, Hurl. simpl.
  by rewrite (refresh_block_failure _ _ refreshToken).
Qed.

(** What one call of the instance puts on the wire: the request, then at
    most a refresh and a re-issue; at most one POST to the refresh
    endpoint in all. Nothing else than the secure store is written. *)
Lemma api_wire config w :
  ∃ rest,
    wire (api backend config w).2 = wire w ++ ApiDispatch (outgoing config w) :: rest
    ∧ refresh_posts (ApiDispatch (outgoing config w) :: rest) ≤ 1
    ∧ asyncStorage (api backend config w).2 = asyncStorage w
    ∧ router (api backend config w).2 = router w.
Proof.
  rewrite api_unfold. cbv zeta.
  destruct (_ && _) eqn:Hg.
  - apply andb_prop in Hg as [_ Hurl]. apply negb_true_iff in Hurl.
    destruct (refresh_block_completes (set_retry (outgoing config w))
                (sent (ApiDispatch (outgoing config w)) w))
      as (again & w2 & calls & Hrun & Hw & Ha & Hr & Hcalls & Hagain).
    rewrite Hrun. simpl in Hw, Ha, Hr.
    assert (refresh_posts calls ≤ 1) as Hle.
    { destruct Hcalls as [->|[t ->]]; [by apply Nat.le_0_l |].
      rewrite refresh_posts_one, is_refresh_post_refresh_call. done. }
    destruct again as [request|].
    + destruct (Hagain request eq_refl) as (_ & Hu & _). simpl in Hu.
      exists (calls ++ [ApiDispatch (outgoing request w2)]). simpl.
      split_and!; [rewrite Hw, <- !app_assoc; done | | done | done].
      rewrite refresh_posts_cons, refresh_posts_app, refresh_posts_one.
      rewrite !not_refresh_post; [lia | | done].
      destruct (outgoing_fields request w2) as (_ & -> & _). by rewrite Hu.
    + exists calls. simpl. split_and!; [by rewrite Hw, <- app_assoc | | done | done].
      rewrite refresh_posts_cons, not_refresh_post by done. lia.
  - exists []. simpl. split_and!; [done | | done | done].
    rewrite refresh_posts_one. destruct (is_refresh_post _); lia.
Qed.

End Interceptors.

(** ** Claims on the interceptor chain *)

(** C5, as the code has it. A request whose URL does not contain
    ['/auth/'], made while a non-empty access token is stored, leaves the
    request interceptor with an [Authorization] header equal to
    ['Bearer '] followed by that token, and this is the request the
    instance dispatches. *)
Theorem bearer_header_attached backend config w token :
  Js.includes (url config) "/auth/" = false →
  secureStore w !! "access_token" = Some token → token ≠ "" →
  request_interceptor config w = (Ok (set_Authorization ("Bearer " +:+ token) config), w)
  ∧ Authorization (set_Authorization ("Bearer " +:+ token) config) = Some ("Bearer " +:+ token)
  ∧ ∃ rest, wire (api backend config w).2 =
      wire w ++ ApiDispatch (set_Authorization ("Bearer " +:+ token) config) :: rest.
Proof.
  intros Hurl Ht Hne. split_and!; [| done |].
  - by rewrite request_interceptor_run, (outgoing_bearer _ _ token).
  - destruct (api_wire backend config w) as (rest & Hw & _).
    exists rest. by rewrite Hw, (outgoing_bearer _ _ token).
Qed.

(** C1. A request to a path that is not a token endpoint, not yet
    marked as retried, is answered 401 while a refresh token is stored,
    and the refresh succeeds. Then the calls made are exactly the
    request, one POST to the refresh endpoint and one re-issue of the
    request, which carries ['Bearer '] followed by the new access token
    (and the retried mark); the new access token is stored, and so is the
    new refresh token when the response has one (the old one stays
    otherwise); the caller gets whatever the re-issued request settles
    to. *)
Theorem refresh_once_then_reissue backend config w refreshToken r401 refreshed access :
  Js.includes (url config) "/auth/token/" = false →
  _retry config = false →
  secureStore w !! "refresh_token" = Some refreshToken → refreshToken ≠ "" →
  backend (wire w) (ApiDispatch (outgoing config w)) = Some r401 →
  status r401 = 401%Z →
  backend (wire w ++ [ApiDispatch (outgoing config w)]) (refresh_call (Js.Str refreshToken))
    = Some refreshed →
  validateStatus (status refreshed) = true →
  prop (body refreshed) "access" = Js.Str access →
  optional_token (prop (body refreshed) "refresh") →
  let retried := set_Authorization ("Bearer " +:+ access) (set_retry (outgoing config w)) in
  let calls := [ApiDispatch (outgoing config w); refresh_call (Js.Str refreshToken)] in
  let w' := (api backend config w).2 in
  wire w' = wire w ++ calls ++ [ApiDispatch retried]
  ∧ refresh_posts (calls ++ [ApiDispatch retried]) = 1
  ∧ secureStore w' !! "access_token" = Some access
  ∧ secureStore w' !! "refresh_token" =
      Some (if Js.truthy (prop (body refreshed) "refresh")
            then Js.text (prop (body refreshed) "refresh")
            else refreshToken)
  ∧ Authorization retried = Some ("Bearer " +:+ access)
  ∧ _retry retried = true
  ∧ (api backend config w).1 = settled retried (backend (wire w ++ calls) (ApiDispatch retried)).
Proof.
  intros Hurl Hretry Hrt Hne H401 Hs Hb Hv Ha Hr. cbv zeta.
  rewrite (api_refresh_run backend config w refreshToken r401 refreshed access) by done.
  destruct (outgoing_fields config w) as (_ & Hu & _).
  unfold refreshed_world. rewrite Ha. simpl.
  split_and!; try done.
  - by rewrite <- !app_assoc.
  - apply refresh_posts_reissue. by rewrite Hu.
  - destruct (Js.truthy _); simpl; [| by rewrite lookup_insert_eq].
    rewrite lookup_insert_ne by done. by rewrite lookup_insert_eq.
  - destruct (Js.truthy _) eqn:Ht; simpl.
    + by rewrite lookup_insert_eq.
    + rewrite lookup_insert_ne by done. done.
  - by rewrite <- !app_assoc.
Qed.

(** C2. One call of the instance makes at most one POST to the refresh
    endpoint. When the re-issued request is answered 401 again, that
    second error, whose request carries the retried mark, is what the
    caller gets, and the refresh made before it stays the only one. *)
Theorem refresh_at_most_once backend config w :
  (∃ calls,
     wire (api backend config w).2 = wire w ++ calls ∧ refresh_posts calls ≤ 1)
  ∧ ∀ refreshToken r401 refreshed access again401,
      Js.includes (url config) "/auth/token/" = false →
      _retry config = false →
      secureStore w !! "refresh_token" = Some refreshToken → refreshToken ≠ "" →
      backend (wire w) (ApiDispatch (outgoing config w)) = Some r401 →
      status r401 = 401%Z →
      backend (wire w ++ [ApiDispatch (outgoing config w)]) (refresh_call (Js.Str refreshToken))
        = Some refreshed →
      validateStatus (status refreshed) = true →
      prop (body refreshed) "access" = Js.Str access →
      optional_token (prop (body refreshed) "refresh") →
      let retried := set_Authorization ("Bearer " +:+ access) (set_retry (outgoing config w)) in
      let calls := [ApiDispatch (outgoing config w); refresh_call (Js.Str refreshToken)] in
      backend (wire w ++ calls) (ApiDispatch retried) = Some again401 →
      status again401 = 401%Z →
      (api backend config w).1 = Throw (AxiosError retried (Some again401))
      ∧ _retry retried = true
      ∧ wire (api backend config w).2 = wire w ++ calls ++ [ApiDispatch retried]
      ∧ refresh_posts (calls ++ [ApiDispatch retried]) = 1.
Proof.
  split.
  - destruct (api_wire backend config w) as (rest & Hw & Hle & _). eauto.
  - intros refreshToken r401 refreshed access again401
      Hurl Hretry Hrt Hne H401 Hs Hb Hv Ha Hr retried calls Hagain Hs2.
    rewrite (api_refresh_run backend config w refreshToken r401 refreshed access) by done.
    destruct (outgoing_fields config w) as (_ & Hu & _).
    unfold refreshed_world. cbn [fst snd sent with_secureStore wire].
    subst calls retried. rewrite <- !app_assoc. cbn [app]. rewrite Hagain.
    split_and!; [| done | done |].
    + unfold settled, validateStatus. by rewrite Hs2.
    + apply refresh_posts_reissue. by rewrite Hu.
Qed.

(** C3, as the code has it. The request interceptor hands on unchanged,
    with no header added, every request whose URL contains ['/auth/'].
    A request whose URL contains ['/auth/token/'] is dispatched once and
    settled as answered: whatever the status, 401 included, no refresh is
    made, no store is written and the error goes to the caller. *)
Theorem auth_requests_unauthenticated backend config w :
  (Js.includes (url config) "/auth/" = true →
     request_interceptor config w = (Ok config, w))
  ∧ (Js.includes (url config) "/auth/token/" = true →
       api backend config w =
         (settled config (backend (wire w) (ApiDispatch config)), sent (ApiDispatch config) w)).
Proof.
  split.
  - intros H. by rewrite request_interceptor_run, outgoing_auth.
  - apply api_token_endpoint.
Qed.

(** ** The session manager *)

Section SessionManager.

Context (backend : Backend).
Context (JSON_stringify : Json → string).

Lemma authService_login_Ok email password role w tokens :
  backend (wire w) (ApiDispatch (login_request email password role)) = Some tokens →
  validateStatus (status tokens) = true →
  authService.login backend email password (role_text role) w =
    (Ok (body tokens), sent (ApiDispatch (login_request email password role)) w).
Proof.
  intros Hb Hv. unfold authService.login, api_post.
  fold (login_request email password role).
  erewrite bind_Ok; [done |].
  rewrite api_token_endpoint by done. unfold settled. by rewrite Hb, Hv.
Qed.

Lemma authService_login_Throw email password role w :
  rejects (backend (wire w) (ApiDispatch (login_request email password role))) = true →
  authService.login backend email password (role_text role) w =
    (Throw (AxiosError (login_request email password role)
              (backend (wire w) (ApiDispatch (login_request email password role)))),
     sent (ApiDispatch (login_request email password role)) w).
Proof.
  intros Hb. unfold authService.login, api_post.
  fold (login_request email password role).
  erewrite bind_Throw; [done |].
  rewrite api_token_endpoint by done. unfold settled.
  destruct (backend _ _) as [r|]; [| done]. simpl in Hb.
  by destruct (validateStatus _).
Qed.

Lemma setUserSession_run user access refresh w :
  setUserSession JSON_stringify user (Some (Js.Str access, Js.Str refresh)) w =
    (Ok (),
     mkWorld
       (<["current_user" := JSON_stringify (JsonUser user)]>
          (<["refresh_token" := refresh]> (<["access_token" := access]> (secureStore w))))
       (<["isLoggedIn" := "true"]>
          (<["userRole" := role_text (User.role user)]>
             (<["current_user" := JSON_stringify (JsonUser user)]> (asyncStorage w))))
       (wire w) (router w)).
Proof. reflexivity. Qed.

(** The rest of [login] once the token pair is in and the user record
    has been settled on. *)
Lemma login_run email password role w tokens access refresh userData w2 :
  backend (wire w) (ApiDispatch (login_request email password role)) = Some tokens →
  validateStatus (status tokens) = true →
  prop (body tokens) "access" = Js.Str access →
  prop (body tokens) "refresh" = Js.Str refresh →
  try_catch
    (profileResponse ← api_get backend "/auth/profile/";
     mret (profile_user (body profileResponse) email role))
    (λ _, mret (fallback_user email role))
    (tokens_stored access refresh (login_request email password role) w) = (Ok userData, w2) →
  login backend JSON_stringify email password role w =
    (Ok (mkLoginResult true (Js.Str "Login successful") (Some userData)),
     session_stored (JSON_stringify (JsonUser userData)) (User.role userData)
       access refresh (redirectTo userData) w2).
Proof.
  intros Hb Hv Ha Hr Hu. unfold login.
  erewrite try_catch_Ok; [done |].
  erewrite bind_Ok by by apply authService_login_Ok.
  rewrite Ha, Hr.
  erewrite bind_Ok by reflexivity.
  erewrite bind_Ok by reflexivity.
  erewrite bind_Ok by exact Hu.
  erewrite bind_Ok by apply setUserSession_run.
  reflexivity.
Qed.

Lemma profile_fetch_Ok email password role w access refresh profile w2 :
  api_get backend "/auth/profile/"
    (tokens_stored access refresh (login_request email password role) w) = (Ok profile, w2) →
  try_catch
    (profileResponse ← api_get backend "/auth/profile/";
     mret (profile_user (body profileResponse) email role))
    (λ _, mret (fallback_user email role))
    (tokens_stored access refresh (login_request email password role) w)
  = (Ok (profile_user (body profile) email role), w2)
  ∧ asyncStorage w2 = asyncStorage w ∧ router w2 = router w.
Proof.
  intros Hp. split.
  - erewrite try_catch_Ok; [done |]. by erewrite bind_Ok.
  - destruct (api_wire backend (mkConfig GET "/auth/profile/" None false ∅)
                (tokens_stored access refresh (login_request email password role) w))
      as (rest & _ & _ & Ha & Hr).
    unfold api_get in Hp. rewrite Hp in Ha, Hr. done.
Qed.

Lemma profile_fetch_Throw email password role w access refresh error w2 :
  api_get backend "/auth/profile/"
    (tokens_stored access refresh (login_request email password role) w) = (Throw error, w2) →
  try_catch
    (profileResponse ← api_get backend "/auth/profile/";
     mret (profile_user (body profileResponse) email role))
    (λ _, mret (fallback_user email role))
    (tokens_stored access refresh (login_request email password role) w)
  = (Ok (fallback_user email role), w2)
  ∧ asyncStorage w2 = asyncStorage w ∧ router w2 = router w.
Proof.
  intros Hp. split.
  - erewrite try_catch_Throw; [done |]. by erewrite bind_Throw.
  - destruct (api_wire backend (mkConfig GET "/auth/profile/" None false ∅)
                (tokens_stored access refresh (login_request email password role) w))
      as (rest & _ & _ & Ha & Hr).
    unfold api_get in Hp. rewrite Hp in Ha, Hr. done.
Qed.

(** The role of the user record built from a profile. *)
Lemma profile_user_role profile email role :
  User.role (profile_user profile email role) =
    if Js.truthy (prop profile "user_type")
    then userRole_of (prop profile "user_type")
    else role.
Proof.
  unfold profile_user, Js.or. simpl.
  destruct (Js.truthy _); [done |]. by destruct role.
Qed.

Lemma login_with_profile email password role w tokens access refresh profile w2 :
  backend (wire w) (ApiDispatch (login_request email password role)) = Some tokens →
  validateStatus (status tokens) = true →
  prop (body tokens) "access" = Js.Str access →
  prop (body tokens) "refresh" = Js.Str refresh →
  api_get backend "/auth/profile/"
    (tokens_stored access refresh (login_request email password role) w) = (Ok profile, w2) →
  let userData := profile_user (body profile) email role in
  login backend JSON_stringify email password role w =
    (Ok (mkLoginResult true (Js.Str "Login successful") (Some userData)),
     session_stored (JSON_stringify (JsonUser userData)) (User.role userData)
       access refresh (redirectTo userData) w2)
  ∧ asyncStorage w2 = asyncStorage w ∧ router w2 = router w.
Proof.
  intros Hb Hv Ha Hr Hp.
  destruct (profile_fetch_Ok email password role w access refresh profile w2 Hp)
    as (Hu & Hasync & Hrouter).
  split; [| done]. by eapply login_run.
Qed.

End SessionManager.

(** ** Claims on the session manager *)

(** C6. The token call succeeds and the profile fetch succeeds. When
    the profile says [user_type: 'designer'], the session role is
    ['designer'], in the record returned and persisted and in the role
    flag, and the router is sent to the designer surface. When it has a
    value that is neither role, such as ['admin'], the session role is
    ['client']. *)
Theorem login_role_follows_profile backend JSON_stringify
    email password role w tokens access refresh profile w2 :
  backend (wire w) (ApiDispatch (login_request email password role)) = Some tokens →
  validateStatus (status tokens) = true →
  prop (body tokens) "access" = Js.Str access →
  prop (body tokens) "refresh" = Js.Str refresh →
  api_get backend "/auth/profile/"
    (tokens_stored access refresh (login_request email password role) w) = (Ok profile, w2) →
  ∃ userData w',
    login backend JSON_stringify email password role w =
      (Ok (mkLoginResult true (Js.Str "Login successful") (Some userData)), w')
    ∧ secureStore w' !! "current_user" = Some (JSON_stringify (JsonUser userData))
    ∧ asyncStorage w' !! "current_user" = Some (JSON_stringify (JsonUser userData))
    ∧ asyncStorage w' !! "userRole" = Some (role_text (User.role userData))
    ∧ (prop (body profile) "user_type" = Js.Str "designer" →
         User.role userData = designer
         ∧ router w' = router w ++ ["/(designer-tabs)/dashboard"])
    ∧ (Js.truthy (prop (body profile) "user_type") = true →
       Js.is_str (prop (body profile) "user_type") "client" = false →
       Js.is_str (prop (body profile) "user_type") "designer" = false →
         User.role userData = client
         ∧ router w' = router w ++ ["/(tabs)/home"]).
Proof.
  intros Hb Hv Ha Hr Hp.
  destruct (login_with_profile backend JSON_stringify email password role w
              tokens access refresh profile w2 Hb Hv Ha Hr Hp) as (Hrun & Hasync & Hrouter).
  eexists _, _. split; [exact Hrun |]. unfold session_stored. cbn [secureStore asyncStorage router wire].
  split_and!.
  - by rewrite lookup_insert_eq.
  - rewrite !lookup_insert_ne by done. by rewrite lookup_insert_eq.
  - rewrite lookup_insert_ne by done. by rewrite lookup_insert_eq.
  - intros Hd. unfold redirectTo. by rewrite profile_user_role, Hd, Hrouter.
  - intros Ht Hc Hd. unfold redirectTo.
    rewrite profile_user_role, Ht, Hrouter. unfold userRole_of. by rewrite Hc, Hd.
Qed.

(** C7, as the code has it. The token call succeeds and the profile
    fetch succeeds. When [user_type] has a truthy value that is neither
    role, the session role is ['client'], whatever role the caller gave;
    the caller's role is the session role when [user_type] is missing or
    falsy. *)
Theorem login_unrecognised_role_is_client backend JSON_stringify
    email password role w tokens access refresh profile w2 :
  backend (wire w) (ApiDispatch (login_request email password role)) = Some tokens →
  validateStatus (status tokens) = true →
  prop (body tokens) "access" = Js.Str access →
  prop (body tokens) "refresh" = Js.Str refresh →
  api_get backend "/auth/profile/"
    (tokens_stored access refresh (login_request email password role) w) = (Ok profile, w2) →
  ∃ userData w',
    login backend JSON_stringify email password role w =
      (Ok (mkLoginResult true (Js.Str "Login successful") (Some userData)), w')
    ∧ asyncStorage w' !! "userRole" = Some (role_text (User.role userData))
    ∧ (Js.truthy (prop (body profile) "user_type") = true →
       Js.is_str (prop (body profile) "user_type") "client" = false →
       Js.is_str (prop (body profile) "user_type") "designer" = false →
         User.role userData = client)
    ∧ (Js.truthy (prop (body profile) "user_type") = false →
         User.role userData = role).
Proof.
  intros Hb Hv Ha Hr Hp.
  destruct (login_with_profile backend JSON_stringify email password role w
              tokens access refresh profile w2 Hb Hv Ha Hr Hp) as (Hrun & _).
  eexists _, _. split; [exact Hrun |]. unfold session_stored. cbn [secureStore asyncStorage router wire].
  split_and!.
  - rewrite lookup_insert_ne by done. by rewrite lookup_insert_eq.
  - intros Ht Hc Hd. rewrite profile_user_role, Ht. unfold userRole_of. by rewrite Hc, Hd.
  - intros Ht. by rewrite profile_user_role, Ht.
Qed.

(** C9. The token call succeeds and the profile fetch fails. [login]
    still returns a success, with a user record made of its own
    arguments (the email, the role the caller gave), and persists that
    session: the token pair, the record, the role flag, the logged-in
    flag; the router is sent to the surface of that role. *)
Theorem login_survives_profile_failure backend JSON_stringify
    email password role w tokens access refresh error w2 :
  backend (wire w) (ApiDispatch (login_request email password role)) = Some tokens →
  validateStatus (status tokens) = true →
  prop (body tokens) "access" = Js.Str access →
  prop (body tokens) "refresh" = Js.Str refresh →
  api_get backend "/auth/profile/"
    (tokens_stored access refresh (login_request email password role) w) = (Throw error, w2) →
  let userData := fallback_user email role in
  ∃ w',
    login backend JSON_stringify email password role w =
      (Ok (mkLoginResult true (Js.Str "Login successful") (Some userData)), w')
    ∧ User.email userData = Js.Str email
    ∧ User.role userData = role
    ∧ secureStore w' !! "access_token" = Some access
    ∧ secureStore w' !! "refresh_token" = Some refresh
    ∧ secureStore w' !! "current_user" = Some (JSON_stringify (JsonUser userData))
    ∧ asyncStorage w' !! "current_user" = Some (JSON_stringify (JsonUser userData))
    ∧ asyncStorage w' !! "userRole" = Some (role_text role)
    ∧ asyncStorage w' !! "isLoggedIn" = Some "true"
    ∧ router w' = router w ++ [redirectTo userData].
Proof.
  intros Hb Hv Ha Hr Hp userData.
  destruct (profile_fetch_Throw backend email password role w access refresh error w2 Hp)
    as (Hu & Hasync & Hrouter).
  eexists. split; [by eapply login_run |]. unfold session_stored. cbn [secureStore asyncStorage router wire].
  split_and!; try done.
  - rewrite !lookup_insert_ne by done. by rewrite lookup_insert_eq.
  - rewrite lookup_insert_ne by done. by rewrite lookup_insert_eq.
  - by rewrite lookup_insert_eq.
  - rewrite !lookup_insert_ne by done. by rewrite lookup_insert_eq.
  - rewrite lookup_insert_ne by done. by rewrite lookup_insert_eq.
  - by rewrite lookup_insert_eq.
  - by rewrite Hrouter.
Qed.

(** C10. The token call fails. [login] returns a failure with a
    message and has written nothing: both stores and the navigation are
    as they were, the token call being the only call made. *)
Theorem login_failure_writes_nothing backend JSON_stringify email password role w :
  rejects (backend (wire w) (ApiDispatch (login_request email password role))) = true →
  ∃ message w',
    login backend JSON_stringify email password role w =
      (Ok (mkLoginResult false message None), w')
    ∧ message =
        login_error_message JSON_stringify
          (AxiosError (login_request email password role)
             (backend (wire w) (ApiDispatch (login_request email password role))))
    ∧ secureStore w' = secureStore w
    ∧ asyncStorage w' = asyncStorage w
    ∧ router w' = router w
    ∧ wire w' = wire w ++ [ApiDispatch (login_request email password role)].
Proof.
  intros Hb. eexists _, _. split.
  - unfold login. erewrite try_catch_Throw; [reflexivity |].
    erewrite bind_Throw; [done |]. by apply authService_login_Throw.
  - done.
Qed.

(** C8. Every call of [logout] completes, leaves neither token nor
    session record in the secure store, neither session record nor role
    flag nor logged-in flag in the mirror, and ends by sending the router
    to ['/login']. No call is sent, so nothing remote can make it fail. *)
Theorem logout_clears_everything w :
  ∃ w',
    logout w = (Ok (), w')
    ∧ secureStore w' !! "access_token" = None
    ∧ secureStore w' !! "refresh_token" = None
    ∧ secureStore w' !! "current_user" = None
    ∧ asyncStorage w' !! "current_user" = None
    ∧ asyncStorage w' !! "userRole" = None
    ∧ asyncStorage w' !! "isLoggedIn" = None
    ∧ router w' = router w ++ ["/login"]
    ∧ wire w' = wire w.
Proof.
  eexists. split; [reflexivity |]. simpl.
  split_and!; try done.
  - rewrite !lookup_delete_ne by done. by rewrite lookup_delete_eq.
  - rewrite !lookup_delete_ne by done. by rewrite lookup_delete_eq.
  - by rewrite lookup_delete_eq.
  - rewrite !lookup_delete_ne by done. by rewrite lookup_delete_eq.
  - by rewrite lookup_delete_eq.
  - rewrite lookup_delete_ne by done. by rewrite lookup_delete_eq.
Qed.

(** ** The claims at concrete inputs *)

Lemma refresh_once_then_reissue_witness :
  map wire_url (wire (api expired_backend get_designs logged_in).2) =
    [API_BASE_URL +:+ "/designs/"; API_BASE_URL +:+ "/auth/token/refresh/";
     API_BASE_URL +:+ "/designs/"]
  ∧ secureStore (api expired_backend get_designs logged_in).2 !! "access_token" = Some "access-2"
  ∧ secureStore (api expired_backend get_designs logged_in).2 !! "refresh_token" = Some "refresh-1".
Proof.
  destruct (refresh_once_then_reissue expired_backend get_designs logged_in
              "refresh-1" unauthorized minted "access-2")
    as (Hw & _ & Ha & Hr & _).
  - reflexivity.
  - reflexivity.
  - reflexivity.
  - discriminate.
  - reflexivity.
  - reflexivity.
  - reflexivity.
  - reflexivity.
  - reflexivity.
  - intros H. vm_compute in H. discriminate.
  - rewrite Hw. split_and!; [reflexivity | exact Ha | exact Hr].
Defined.

Lemma bearer_header_attached_witness :
  request_interceptor get_designs logged_in =
    (Ok (set_Authorization "Bearer access-1" get_designs), logged_in)
  ∧ hd_error (wire (api expired_backend get_designs logged_in).2) =
      Some (ApiDispatch (set_Authorization "Bearer access-1" get_designs)).
Proof.
  destruct (bearer_header_attached expired_backend get_designs logged_in "access-1")
    as (Hi & _ & rest & Hw).
  - reflexivity.
  - reflexivity.
  - discriminate.
  - split; [exact Hi | by rewrite Hw].
Defined.

(** C5, as stated, fails. A stored access token that is the empty
    text is no token to the interceptor's [if (token)]: a request for
    the designs goes out without header. And the test for the
    authentication namespace is a test for the text ['/auth/'] anywhere
    in the URL: the design whose id is "auth" is a path outside that
    namespace, and is fetched without header while a token is stored. *)
Lemma bearer_header_missing :
  (Js.includes (url get_designs) "/auth/" = false
   ∧ secureStore blank_token !! "access_token" = Some ""
   ∧ first_call (api expired_backend get_designs) blank_token = Some (ApiDispatch get_designs)
   ∧ Authorization get_designs = None)
  ∧ (secureStore logged_in !! "access_token" = Some "access-1"
     ∧ first_call (designService.getDesign expired_backend "auth") logged_in =
         Some (ApiDispatch (design_request GET "auth" ∅))
     ∧ url (design_request GET "auth" ∅) = "/designs/auth/"
     ∧ Authorization (design_request GET "auth" ∅) = None).
Proof. by vm_compute. Qed.

Lemma refresh_at_most_once_witness :
  (∃ config,
     (api revoked_backend get_designs logged_in).1 = Throw (AxiosError config (Some unauthorized))
     ∧ _retry config = true ∧ Authorization config = Some "Bearer access-2")
  ∧ refresh_posts (wire (api revoked_backend get_designs logged_in).2) = 1.
Proof.
  destruct (refresh_at_most_once revoked_backend get_designs logged_in) as [_ H].
  destruct (H "refresh-1" unauthorized minted "access-2" unauthorized)
    as (Hres & Hm & Hw & Hn).
  - reflexivity.
  - reflexivity.
  - reflexivity.
  - discriminate.
  - reflexivity.
  - reflexivity.
  - reflexivity.
  - reflexivity.
  - reflexivity.
  - intros Ht. vm_compute in Ht. discriminate.
  - reflexivity.
  - reflexivity.
  - split; [eexists; split_and!; [exact Hres | exact Hm | reflexivity] |].
    rewrite Hw. exact Hn.
Defined.

(** C3, as stated, fails: the profile endpoint is in the authentication
    namespace, and a 401 to it makes the interceptor refresh and re-issue. *)
Lemma profile_401_triggers_refresh :
  Js.includes (url get_profile) "/auth/" = true
  ∧ (status <$> expired_backend [] (ApiDispatch (outgoing get_profile logged_in))) = Some 401%Z
  ∧ map wire_url (wire (api expired_backend get_profile logged_in).2) =
      [API_BASE_URL +:+ "/auth/profile/"; API_BASE_URL +:+ "/auth/token/refresh/";
       API_BASE_URL +:+ "/auth/profile/"]
  ∧ refresh_posts (wire (api expired_backend get_profile logged_in).2) = 1.
Proof. by vm_compute. Qed.

Lemma auth_requests_unauthenticated_witness :
  request_interceptor get_profile logged_in = (Ok get_profile, logged_in)
  ∧ (api refusing_backend (login_request "a@b.com" "pw" designer) logged_in).1 =
      Throw (AxiosError (login_request "a@b.com" "pw" designer) (Some no_account))
  ∧ wire (api refusing_backend (login_request "a@b.com" "pw" designer) logged_in).2 =
      [ApiDispatch (login_request "a@b.com" "pw" designer)]
  ∧ secureStore (api refusing_backend (login_request "a@b.com" "pw" designer) logged_in).2 =
      secureStore logged_in.
Proof.
  destruct (auth_requests_unauthenticated refusing_backend get_profile logged_in) as [H1 _].
  destruct (auth_requests_unauthenticated refusing_backend
              (login_request "a@b.com" "pw" designer) logged_in) as [_ H2].
  split; [apply H1; reflexivity |].
  rewrite H2 by reflexivity. split_and!; reflexivity.
Defined.

(** C4 on the code: a 401 while the refresh token has expired too. The
    original error reaches the caller, the request is not re-issued and
    both tokens are deleted, but the session record stays in the secure
    store, and the mirror still says logged in. *)
Theorem failed_refresh_keeps_session_record :
  (api closed_backend get_designs logged_in).1 =
    Throw (AxiosError (set_retry (set_Authorization "Bearer access-1" get_designs))
             (Some unauthorized))
  ∧ map wire_url (wire (api closed_backend get_designs logged_in).2) =
      [API_BASE_URL +:+ "/designs/"; API_BASE_URL +:+ "/auth/token/refresh/"]
  ∧ secureStore (api closed_backend get_designs logged_in).2 !! "access_token" = None
  ∧ secureStore (api closed_backend get_designs logged_in).2 !! "refresh_token" = None
  ∧ secureStore (api closed_backend get_designs logged_in).2 !! "current_user" = Some "{user}"
  ∧ asyncStorage (api closed_backend get_designs logged_in).2 !! "isLoggedIn" = Some "true".
Proof.
  rewrite (api_refresh_failure_run closed_backend get_designs logged_in "refresh-1" unauthorized);
    try reflexivity; [| discriminate].
  split_and!; reflexivity.
Qed.

(** The sibling refresh of [useAuth.ts], on the same failure, removes
    the session record with the tokens. *)
Lemma refreshAccessToken_failure_clears_session :
  (refreshAccessToken closed_backend logged_in).1 = Ok Js.Null
  ∧ secureStore (refreshAccessToken closed_backend logged_in).2 !! "access_token" = None
  ∧ secureStore (refreshAccessToken closed_backend logged_in).2 !! "refresh_token" = None
  ∧ secureStore (refreshAccessToken closed_backend logged_in).2 !! "current_user" = None.
Proof. by vm_compute. Qed.

Lemma login_role_follows_profile_witness :
  (asyncStorage (login (login_backend "designer") stringify "a@b.com" "pw" designer logged_out).2
     !! "userRole" = Some "designer"
   ∧ router (login (login_backend "designer") stringify "a@b.com" "pw" designer logged_out).2 =
       ["/(designer-tabs)/dashboard"])
  ∧ (asyncStorage (login (login_backend "admin") stringify "a@b.com" "pw" designer logged_out).2
       !! "userRole" = Some "client"
     ∧ router (login (login_backend "admin") stringify "a@b.com" "pw" designer logged_out).2 =
         ["/(tabs)/home"]).
Proof.
  split.
  - destruct (login_role_follows_profile (login_backend "designer") stringify
                "a@b.com" "pw" designer logged_out token_pair "access-1" "refresh-1"
                (profile "designer")
                (api_get (login_backend "designer") "/auth/profile/"
                   (tokens_stored "access-1" "refresh-1"
                      (login_request "a@b.com" "pw" designer) logged_out)).2)
      as (userData & w' & Hrun & _ & _ & Hflag & Hdesigner & _).
    + reflexivity.
    + reflexivity.
    + reflexivity.
    + reflexivity.
    + vm_compute. reflexivity.
    + destruct Hdesigner as [Hrole Hrouter]; [reflexivity |].
      rewrite Hrun. cbn [snd]. rewrite Hflag, Hrole, Hrouter. split; reflexivity.
  - destruct (login_role_follows_profile (login_backend "admin") stringify
                "a@b.com" "pw" designer logged_out token_pair "access-1" "refresh-1"
                (profile "admin")
                (api_get (login_backend "admin") "/auth/profile/"
                   (tokens_stored "access-1" "refresh-1"
                      (login_request "a@b.com" "pw" designer) logged_out)).2)
      as (userData & w' & Hrun & _ & _ & Hflag & _ & Hother).
    + reflexivity.
    + reflexivity.
    + reflexivity.
    + reflexivity.
    + vm_compute. reflexivity.
    + destruct Hother as [Hrole Hrouter]; [reflexivity .. |].
      rewrite Hrun. cbn [snd]. rewrite Hflag, Hrole, Hrouter. split; reflexivity.
Defined.

(** C7, as stated, fails: the caller asks for ['designer'], the profile
    says ['admin'], and the session role is ['client']. *)
Lemma admin_profile_overrides_caller_role :
  let out := login (login_backend "admin") stringify "a@b.com" "pw" designer logged_out in
  match out.1 with
  | Ok result =>
      success result = true
      ∧ (User.user_type <$> user result) = Some (Js.Str "admin")
      ∧ (User.role <$> user result) = Some client
      ∧ (User.role <$> user result) ≠ Some designer
  | _ => False
  end
  ∧ asyncStorage out.2 !! "userRole" = Some "client".
Proof. by vm_compute. Qed.

Lemma login_unrecognised_role_is_client_witness :
  (∃ userData,
     user <$> outcome_value
       (login (login_backend "admin") stringify "a@b.com" "pw" designer logged_out).1
       = Some (Some userData)
     ∧ User.role userData = client)
  ∧ asyncStorage (login (login_backend "admin") stringify "a@b.com" "pw" designer logged_out).2
      !! "userRole" = Some "client".
Proof.
  destruct (login_unrecognised_role_is_client (login_backend "admin") stringify
              "a@b.com" "pw" designer logged_out token_pair "access-1" "refresh-1"
              (profile "admin")
              (api_get (login_backend "admin") "/auth/profile/"
                 (tokens_stored "access-1" "refresh-1"
                    (login_request "a@b.com" "pw" designer) logged_out)).2)
    as (userData & w' & Hrun & Hflag & Hother & _).
  - reflexivity.
  - reflexivity.
  - reflexivity.
  - reflexivity.
  - vm_compute. reflexivity.
  - rewrite Hrun. cbn [fst snd outcome_value fmap option_fmap option_map].
    rewrite Hflag, Hother by reflexivity. split; [| reflexivity].
    exists userData. split; [reflexivity |]. apply Hother; reflexivity.
Defined.

Lemma login_survives_profile_failure_witness :
  (success <$> outcome_value
     (login profile_down_backend stringify "a@b.com" "pw" designer logged_out).1) = Some true
  ∧ secureStore (login profile_down_backend stringify "a@b.com" "pw" designer logged_out).2
      !! "current_user" = Some "{role:designer}"
  ∧ asyncStorage (login profile_down_backend stringify "a@b.com" "pw" designer logged_out).2
      !! "userRole" = Some "designer"
  ∧ secureStore (login profile_down_backend stringify "a@b.com" "pw" designer logged_out).2
      !! "access_token" = Some "access-1".
Proof.
  destruct (login_survives_profile_failure profile_down_backend stringify
              "a@b.com" "pw" designer logged_out token_pair "access-1" "refresh-1"
              (AxiosError get_profile None)
              (api_get profile_down_backend "/auth/profile/"
                 (tokens_stored "access-1" "refresh-1"
                    (login_request "a@b.com" "pw" designer) logged_out)).2)
    as (w' & Hrun & _ & _ & Ha & _ & Hcu & _ & Hflag & _).
  - reflexivity.
  - reflexivity.
  - reflexivity.
  - reflexivity.
  - vm_compute. reflexivity.
  - rewrite Hrun. cbn [fst snd outcome_value fmap option_fmap option_map].
    rewrite Ha, Hcu, Hflag. split_and!; reflexivity.
Defined.

Lemma login_failure_writes_nothing_witness :
  (message <$> outcome_value
     (login refusing_backend stringify "a@b.com" "wrong" client logged_in).1)
    = Some (Js.Str "No active account found")
  ∧ secureStore (login refusing_backend stringify "a@b.com" "wrong" client logged_in).2
      = secureStore logged_in
  ∧ asyncStorage (login refusing_backend stringify "a@b.com" "wrong" client logged_in).2
      = asyncStorage logged_in
  ∧ router (login refusing_backend stringify "a@b.com" "wrong" client logged_in).2 = [].
Proof.
  destruct (login_failure_writes_nothing refusing_backend stringify
              "a@b.com" "wrong" client logged_in)
    as (msg & w' & Hrun & -> & Hs & Ha & Hr & _).
  - reflexivity.
  - rewrite Hrun. cbn [fst snd outcome_value fmap option_fmap option_map success message].
    rewrite Hs, Ha, Hr. split_and!; reflexivity.
Defined.

(** * Further properties *)

(** ** The instance *)

Section InstanceFrame.

Context (backend : Backend).

(** The refresh block writes the two token keys of the secure store and
    no other. *)
Lemma refresh_block_frame originalRequest w again w' :
  refresh_block backend originalRequest w = (Ok again, w') →
  ∀ k, k ≠ "access_token" → k ≠ "refresh_token" →
    secureStore w' !! k = secureStore w !! k.
Proof.
  pose proof (settle_run backend
                (refresh_call (Js.of_item (secureStore w !! "refresh_token")))) as Hs.
  unfold refresh_call in Hs.
  unfold refresh_block, axios_post. unfold_async. unfold_store.
  destruct (Js.truthy _).
  - rewrite Hs. unfold settled.
    destruct (backend _ _) as [r|]; [destruct (validateStatus _) |];
      [destruct (prop (body r) "access");
       destruct (Js.truthy (prop (body r) "refresh"));
       destruct (prop (body r) "refresh") | |];
      cbn [sent secureStore asyncStorage wire router];
      intros [= <- <-] k Ha Hr; cbn [secureStore];
      repeat first [ rewrite lookup_insert_ne by congruence
                   | rewrite lookup_delete_ne by congruence ];
      reflexivity.
  - by intros [= <- <-].
Qed.

Lemma refresh_block_calls originalRequest w again w' :
  refresh_block backend originalRequest w = (Ok again, w') →
  ∃ calls, wire w' = wire w ++ calls ∧ length calls ≤ 1.
Proof.
  intros Hrun.
  destruct (refresh_block_completes backend originalRequest w)
    as (again' & w'' & calls & Hrun' & Hw & _ & _ & Hcalls & _).
  rewrite Hrun in Hrun'. injection Hrun' as <- <-.
  exists calls. split; [done |]. destruct Hcalls as [->|[t ->]]; simpl; lia.
Qed.

End InstanceFrame.

(** X1. A call of the instance always settles, and does so after at
    most three calls on the wire (the request, one refresh, one re-issue):
    a deeper recursion budget than two changes nothing. *)
Theorem api_settles_within_three_calls backend config w n :
  api_request backend (S (S n)) config w = api backend config w
  ∧ (api backend config w).1 ≠ OutOfFuel
  ∧ ∃ calls,
      wire (api backend config w).2 = wire w ++ calls
      ∧ 1 ≤ length calls ≤ 3.
Proof.
  split_and!; [apply api_request_fuel | apply api_terminates |].
  rewrite api_unfold. cbv zeta.
  destruct (_ && _).
  - destruct (refresh_block_completes backend (set_retry (outgoing config w))
                (sent (ApiDispatch (outgoing config w)) w))
      as (again & w2 & calls & Hrun & Hw & _ & _ & Hcalls & _).
    rewrite Hrun. simpl in Hw.
    assert (length calls ≤ 1) by (destruct Hcalls as [->|[t ->]]; simpl; lia).
    destruct again as [request|]; simpl; rewrite Hw, <- ?app_assoc;
      eexists; (split; [reflexivity |]); rewrite ?length_app; simpl; lia.
  - exists [ApiDispatch (outgoing config w)]. simpl. split; [done | lia].
Qed.

(** X2. Whatever the backend answers, a call of the instance leaves the
    AsyncStorage mirror and the navigation alone, and in the secure store
    it writes no key other than the two tokens. *)
Theorem api_writes_tokens_only backend config w :
  asyncStorage (api backend config w).2 = asyncStorage w
  ∧ router (api backend config w).2 = router w
  ∧ ∀ k, k ≠ "access_token" → k ≠ "refresh_token" →
      secureStore (api backend config w).2 !! k = secureStore w !! k.
Proof.
  destruct (api_wire backend config w) as (rest & _ & _ & Ha & Hr).
  split_and!; [done | done |].
  intros k Hk1 Hk2. rewrite api_unfold. cbv zeta.
  destruct (_ && _); [| done].
  destruct (refresh_block_completes backend (set_retry (outgoing config w))
              (sent (ApiDispatch (outgoing config w)) w))
    as (again & w2 & calls & Hrun & _).
  rewrite Hrun.
  pose proof (refresh_block_frame backend _ _ _ _ Hrun k Hk1 Hk2) as Hf.
  by destruct again.
Qed.

(** X3. A 401 while no refresh token is stored (none, or an empty one):
    the error goes to the caller, its request marked as retried; no
    refresh is attempted, nothing is re-issued and no store is written. *)
Theorem unauthorized_without_refresh_token backend config w r401 :
  Js.includes (url config) "/auth/token/" = false →
  _retry config = false →
  Js.truthy (Js.of_item (secureStore w !! "refresh_token")) = false →
  backend (wire w) (ApiDispatch (outgoing config w)) = Some r401 →
  status r401 = 401%Z →
  api backend config w =
    (Throw (AxiosError (set_retry (outgoing config w)) (Some r401)),
     sent (ApiDispatch (outgoing config w)) w).
Proof.
  intros Hurl Hretry Hrt H401 Hs.
  rewrite api_unfold. cbv zeta.
  destruct (outgoing_fields config w) as (_ & Hu & Hre & _).
  rewrite H401. simpl. rewrite Hs, Hu, Hre, Hretry, Hurl. simpl.
  by rewrite refresh_block_skips.
Qed.

(** An answer that is not a 401 ends the call. *)
Lemma api_not_401 backend config w :
  status_is_401 (backend (wire w) (ApiDispatch (outgoing config w))) = false →
  api backend config w =
    (settled (outgoing config w) (backend (wire w) (ApiDispatch (outgoing config w))),
     sent (ApiDispatch (outgoing config w)) w).
Proof.
  intros H. rewrite api_unfold. cbv zeta. by rewrite H.
Qed.

(** X4. An answer that is not a 401 (a success, any other error status,
    no answer at all) is handed to the caller as axios settles it, after
    the one call; no store is written and nothing is refreshed. *)
Theorem other_answers_pass_through backend config w :
  status_is_401 (backend (wire w) (ApiDispatch (outgoing config w))) = false →
  (api backend config w).1 =
    settled (outgoing config w) (backend (wire w) (ApiDispatch (outgoing config w)))
  ∧ wire (api backend config w).2 = wire w ++ [ApiDispatch (outgoing config w)]
  ∧ secureStore (api backend config w).2 = secureStore w
  ∧ asyncStorage (api backend config w).2 = asyncStorage w
  ∧ router (api backend config w).2 = router w.
Proof.
  intros H. by rewrite api_not_401.
Qed.

(** X5. A 401 whose refresh is rejected: the original error goes to the
    caller, the request is not re-issued, both tokens are deleted from
    the secure store and every other key of it is as before. *)
Theorem refresh_failure_clears_the_tokens backend config w refreshToken r401 :
  Js.includes (url config) "/auth/token/" = false →
  _retry config = false →
  secureStore w !! "refresh_token" = Some refreshToken → refreshToken ≠ "" →
  backend (wire w) (ApiDispatch (outgoing config w)) = Some r401 →
  status r401 = 401%Z →
  rejects (backend (wire w ++ [ApiDispatch (outgoing config w)])
             (refresh_call (Js.Str refreshToken))) = true →
  (api backend config w).1 = Throw (AxiosError (set_retry (outgoing config w)) (Some r401))
  ∧ wire (api backend config w).2 =
      wire w ++ [ApiDispatch (outgoing config w); refresh_call (Js.Str refreshToken)]
  ∧ secureStore (api backend config w).2 !! "access_token" = None
  ∧ secureStore (api backend config w).2 !! "refresh_token" = None
  ∧ ∀ k, k ≠ "access_token" → k ≠ "refresh_token" →
      secureStore (api backend config w).2 !! k = secureStore w !! k.
Proof.
  intros Hurl Hretry Hrt Hne H401 Hs Hb.
  rewrite (api_refresh_failure_run backend config w refreshToken r401) by done.
  cbn [fst snd with_secureStore sent secureStore wire].
  split_and!; [done | by rewrite <- app_assoc | | |].
  - rewrite lookup_delete_ne by done. by rewrite lookup_delete_eq.
  - by rewrite lookup_delete_eq.
  - intros k Hk1 Hk2. by rewrite !lookup_delete_ne by congruence.
Qed.

(** ** The session queries and [refreshAccessToken] *)

Section SessionQueries.

Context (backend : Backend).
Context (JSON_stringify : Json → string).
Context (JSON_parse : string → option User.t).

Lemma isLoggedIn_run w :
  isLoggedIn w =
    (Ok (Js.truthy (Js.of_item (secureStore w !! "access_token"))
         || Js.is_str (Js.of_item (asyncStorage w !! "isLoggedIn")) "true"), w).
Proof. reflexivity. Qed.

Lemma getUserRole_run w :
  getUserRole w =
    (Ok (if Js.is_str (Js.of_item (asyncStorage w !! "userRole")) "client" then Some client
         else if Js.is_str (Js.of_item (asyncStorage w !! "userRole")) "designer"
              then Some designer
              else None), w).
Proof.
  unfold getUserRole, ROLE_KEY. unfold_async. unfold_store.
  by repeat destruct (Js.is_str _ _).
Qed.

Lemma getCurrentUser_run w :
  getCurrentUser JSON_parse w =
    (Ok (let secure := Js.of_item (secureStore w !! "current_user") in
         let userJson :=
           if Js.truthy secure then secure else Js.of_item (asyncStorage w !! "current_user") in
         if Js.truthy userJson then JSON_parse (Js.text userJson) else None), w).
Proof.
  unfold getCurrentUser, USER_SESSION. unfold_async. unfold_store. cbv zeta.
  by repeat destruct (Js.truthy _).
Qed.

Lemma logout_run w :
  logout w =
    (Ok (),
     mkWorld
       (delete "current_user"
          (delete "refresh_token"
             (delete "access_token"
                (delete "refresh_token" (delete "access_token" (secureStore w))))))
       (delete "userRole" (delete "isLoggedIn" (delete "current_user" (asyncStorage w))))
       (wire w) (router w ++ ["/login"])).
Proof. reflexivity. Qed.

Lemma refresh_request_run w refreshToken :
  api_post backend "/auth/token/refresh/" {[ "refresh" := refreshToken ]} w =
    (settled (refresh_request refreshToken)
       (backend (wire w) (ApiDispatch (refresh_request refreshToken))),
     sent (ApiDispatch (refresh_request refreshToken)) w).
Proof. unfold api_post. by rewrite api_token_endpoint. Qed.

End SessionQueries.

(** X6. [refreshAccessToken] with no refresh token stored (none, or an
    empty one) answers [null] and does nothing: no call, no write. *)
Theorem refreshAccessToken_without_token backend w :
  Js.truthy (Js.of_item (secureStore w !! "refresh_token")) = false →
  refreshAccessToken backend w = (Ok Js.Null, w).
Proof.
  intros H. unfold refreshAccessToken, REFRESH_TOKEN_KEY.
  unfold_async. unfold_store. by rewrite H.
Qed.

(** X7. [refreshAccessToken] with a stored refresh token and a refresh
    that succeeds: it makes the one call, without header, returns the new
    access token and stores it; the refresh token is replaced when the
    response has one and kept otherwise. *)
Theorem refreshAccessToken_success backend w refreshToken refreshed access :
  secureStore w !! "refresh_token" = Some refreshToken → refreshToken ≠ "" →
  backend (wire w) (ApiDispatch (refresh_request (Js.Str refreshToken))) = Some refreshed →
  validateStatus (status refreshed) = true →
  prop (body refreshed) "access" = Js.Str access →
  optional_token (prop (body refreshed) "refresh") →
  (refreshAccessToken backend w).1 = Ok (Js.Str access)
  ∧ wire (refreshAccessToken backend w).2 =
      wire w ++ [ApiDispatch (refresh_request (Js.Str refreshToken))]
  ∧ secureStore (refreshAccessToken backend w).2 !! "access_token" = Some access
  ∧ secureStore (refreshAccessToken backend w).2 !! "refresh_token" =
      Some (if Js.truthy (prop (body refreshed) "refresh")
            then Js.text (prop (body refreshed) "refresh")
            else refreshToken).
Proof.
  intros Hrt Hne Hb Hv Ha Hr.
  assert (refreshAccessToken backend w =
            (Ok (Js.Str access),
             with_secureStore
               ((if Js.truthy (prop (body refreshed) "refresh")
                 then <["refresh_token" := Js.text (prop (body refreshed) "refresh")]>
                 else id) (<["access_token" := access]> (secureStore w)))
               (sent (ApiDispatch (refresh_request (Js.Str refreshToken))) w))) as ->.
  { unfold refreshAccessToken, REFRESH_TOKEN_KEY, ACCESS_TOKEN_KEY.
    erewrite try_catch_Ok; [reflexivity |].
    erewrite bind_Ok by reflexivity. rewrite Hrt. cbn [Js.of_item Js.truthy].
    destruct (String.eqb_spec refreshToken ""); [done |]. cbn [negb].
    erewrite bind_Ok
      by (rewrite refresh_request_run; unfold settled; rewrite Hb, Hv; reflexivity).
    rewrite Ha. erewrite bind_Ok by reflexivity.
    destruct (Js.truthy (prop (body refreshed) "refresh")) eqn:Ht.
    - destruct (Hr Ht) as [s Hs]. rewrite Hs. by erewrite bind_Ok by reflexivity.
    - by erewrite bind_Ok by reflexivity. }
  cbn [fst snd with_secureStore sent secureStore wire].
  split_and!; [done | done | |].
  - destruct (Js.truthy _); cbn [id]; [rewrite lookup_insert_ne by done |];
      by rewrite lookup_insert_eq.
  - destruct (Js.truthy _); cbn [id]; [by rewrite lookup_insert_eq |].
    by rewrite lookup_insert_ne.
Qed.

(** The run of [refreshAccessToken] when the refresh is rejected. *)
Lemma refreshAccessToken_failure_run backend w refreshToken :
  secureStore w !! "refresh_token" = Some refreshToken → refreshToken ≠ "" →
  rejects (backend (wire w) (ApiDispatch (refresh_request (Js.Str refreshToken)))) = true →
  refreshAccessToken backend w =
    (Ok Js.Null,
     with_secureStore
       (delete "current_user"
          (delete "refresh_token" (delete "access_token" (secureStore w))))
       (sent (ApiDispatch (refresh_request (Js.Str refreshToken))) w)).
Proof.
  intros Hrt Hne Hb.
  unfold refreshAccessToken, REFRESH_TOKEN_KEY, ACCESS_TOKEN_KEY.
  rewrite (try_catch_Throw _ _ _
             (AxiosError (refresh_request (Js.Str refreshToken))
                (backend (wire w) (ApiDispatch (refresh_request (Js.Str refreshToken)))))
             (sent (ApiDispatch (refresh_request (Js.Str refreshToken))) w));
    [reflexivity |].
  erewrite bind_Ok by reflexivity. rewrite Hrt. cbn [Js.of_item Js.truthy].
  destruct (String.eqb_spec refreshToken ""); [done |]. cbn [negb].
  apply bind_Throw.
  rewrite refresh_request_run. unfold settled.
  destruct (backend _ _) as [r|]; [| reflexivity]. simpl in Hb.
  destruct (validateStatus _); [done | reflexivity].
Qed.

(** X8. [refreshAccessToken] with a stored refresh token and a refresh
    that is rejected, with a 401 or otherwise: it answers [null] after
    that one call (the interceptor does not refresh for it), and both
    tokens and the session record are gone from the secure store, whose
    other keys are as before. *)
Theorem refreshAccessToken_failure backend w refreshToken :
  secureStore w !! "refresh_token" = Some refreshToken → refreshToken ≠ "" →
  rejects (backend (wire w) (ApiDispatch (refresh_request (Js.Str refreshToken)))) = true →
  (refreshAccessToken backend w).1 = Ok Js.Null
  ∧ wire (refreshAccessToken backend w).2 =
      wire w ++ [ApiDispatch (refresh_request (Js.Str refreshToken))]
  ∧ secureStore (refreshAccessToken backend w).2 !! "access_token" = None
  ∧ secureStore (refreshAccessToken backend w).2 !! "refresh_token" = None
  ∧ secureStore (refreshAccessToken backend w).2 !! "current_user" = None
  ∧ ∀ k, k ≠ "access_token" → k ≠ "refresh_token" → k ≠ "current_user" →
      secureStore (refreshAccessToken backend w).2 !! k = secureStore w !! k.
Proof.
  intros Hrt Hne Hb.
  rewrite (refreshAccessToken_failure_run backend w refreshToken) by done.
  cbn [fst snd with_secureStore sent secureStore wire].
  split_and!; [done | done | | | |].
  - rewrite !lookup_delete_ne by done. by rewrite lookup_delete_eq.
  - rewrite lookup_delete_ne by done. by rewrite lookup_delete_eq.
  - by rewrite lookup_delete_eq.
  - intros k H1 H2 H3. by rewrite !lookup_delete_ne by congruence.
Qed.

(** X9. After [logout], whatever the stores held, the session queries
    all answer that there is no session: [isLoggedIn] is false,
    [getUserRole] and [getCurrentUser] are [null]. *)
Theorem logout_ends_the_session JSON_parse w :
  isLoggedIn (logout w).2 = (Ok false, (logout w).2)
  ∧ getUserRole (logout w).2 = (Ok None, (logout w).2)
  ∧ getCurrentUser JSON_parse (logout w).2 = (Ok None, (logout w).2).
Proof.
  rewrite isLoggedIn_run, getUserRole_run, getCurrentUser_run, logout_run.
  cbn [snd secureStore asyncStorage].
  rewrite !(lookup_delete_ne _ _ "access_token") by done. rewrite lookup_delete_eq.
  rewrite (lookup_delete_ne _ _ "isLoggedIn") by done. rewrite lookup_delete_eq.
  rewrite !lookup_delete_eq.
  rewrite !(lookup_delete_ne _ _ "current_user") by done. rewrite lookup_delete_eq.
  done.
Qed.

(** X10. What [setUserSession] stores is what the queries read back:
    [isLoggedIn] is true, [getUserRole] is the role of the user, and
    [getCurrentUser] parses the very text that was stored (a serialised
    user is never the empty text). *)
Theorem setUserSession_read_back JSON_stringify JSON_parse user access refresh w :
  JSON_stringify (JsonUser user) ≠ "" →
  let w' := (setUserSession JSON_stringify user (Some (Js.Str access, Js.Str refresh)) w).2 in
  (setUserSession JSON_stringify user (Some (Js.Str access, Js.Str refresh)) w).1 = Ok ()
  ∧ secureStore w' !! "access_token" = Some access
  ∧ secureStore w' !! "refresh_token" = Some refresh
  ∧ isLoggedIn w' = (Ok true, w')
  ∧ getUserRole w' = (Ok (Some (User.role user)), w')
  ∧ getCurrentUser JSON_parse w' = (Ok (JSON_parse (JSON_stringify (JsonUser user))), w').
Proof.
  intros Hne. cbv zeta.
  rewrite isLoggedIn_run, getUserRole_run, getCurrentUser_run, setUserSession_run.
  cbn [fst snd secureStore asyncStorage].
  rewrite !lookup_insert_eq.
  rewrite !(lookup_insert_ne _ "current_user") by done.
  rewrite !(lookup_insert_ne _ "isLoggedIn" "userRole") by done.
  rewrite !lookup_insert_eq.
  rewrite (lookup_insert_ne _ "refresh_token") by done. rewrite lookup_insert_eq.
  assert (String.eqb (JSON_stringify (JsonUser user)) "" = false) as He
    by by apply String.eqb_neq.
  cbn [Js.of_item Js.truthy Js.text Js.is_str]. rewrite He.
  cbn [negb Js.truthy Js.text]. rewrite He, orb_true_r.
  split_and!; try done.
  by destruct (User.role user).
Qed.

(** ** [login] and the interceptor, seen through the session queries *)

(** X11. [login] succeeds as soon as the token call does: whatever
    becomes of the profile fetch, the result is a success, the pair of
    the token call is what ends up stored (also when the profile fetch
    went through a refresh), the mirror says logged in with the role of
    the user returned, and the router goes to the surface of that role. *)
Theorem login_succeeds_on_token_pair backend JSON_stringify
    email password role w tokens access refresh :
  backend (wire w) (ApiDispatch (login_request email password role)) = Some tokens →
  validateStatus (status tokens) = true →
  prop (body tokens) "access" = Js.Str access →
  prop (body tokens) "refresh" = Js.Str refresh →
  ∃ userData w',
    login backend JSON_stringify email password role w =
      (Ok (mkLoginResult true (Js.Str "Login successful") (Some userData)), w')
    ∧ (userData = fallback_user email role
       ∨ ∃ profile, userData = profile_user profile email role)
    ∧ secureStore w' !! "access_token" = Some access
    ∧ secureStore w' !! "refresh_token" = Some refresh
    ∧ asyncStorage w' !! "isLoggedIn" = Some "true"
    ∧ asyncStorage w' !! "userRole" = Some (role_text (User.role userData))
    ∧ router w' = router w ++ [redirectTo userData].
Proof.
  intros Hb Hv Ha Hr.
  destruct (api_get backend "/auth/profile/"
              (tokens_stored access refresh (login_request email password role) w))
    as [[profile|error|] w2] eqn:Hp.
  - destruct (profile_fetch_Ok backend email password role w access refresh profile w2 Hp)
      as (Hu & _ & Hrouter).
    eexists _, _. split; [by eapply login_run |].
    unfold session_stored. cbn [secureStore asyncStorage router wire].
    split_and!; [eauto | | | | |].
    + rewrite !lookup_insert_ne by done. by rewrite lookup_insert_eq.
    + rewrite lookup_insert_ne by done. by rewrite lookup_insert_eq.
    + by rewrite lookup_insert_eq.
    + rewrite lookup_insert_ne by done. by rewrite lookup_insert_eq.
    + by rewrite Hrouter.
  - destruct (profile_fetch_Throw backend email password role w access refresh error w2 Hp)
      as (Hu & _ & Hrouter).
    eexists _, _. split; [by eapply login_run |].
    unfold session_stored. cbn [secureStore asyncStorage router wire].
    split_and!; [eauto | | | | |].
    + rewrite !lookup_insert_ne by done. by rewrite lookup_insert_eq.
    + rewrite lookup_insert_ne by done. by rewrite lookup_insert_eq.
    + by rewrite lookup_insert_eq.
    + rewrite lookup_insert_ne by done. by rewrite lookup_insert_eq.
    + by rewrite Hrouter.
  - exfalso.
    apply (api_terminates backend (mkConfig GET "/auth/profile/" None false ∅)
             (tokens_stored access refresh (login_request email password role) w)).
    unfold api_get in Hp. by rewrite Hp.
Qed.

(** X12. After a 401 whose refresh is rejected, the access token is
    gone, yet [isLoggedIn] keeps answering true as long as the mirror
    holds its logged-in flag: the interceptor does not touch the mirror. *)
Theorem isLoggedIn_after_failed_refresh backend config w refreshToken r401 :
  Js.includes (url config) "/auth/token/" = false →
  _retry config = false →
  secureStore w !! "refresh_token" = Some refreshToken → refreshToken ≠ "" →
  backend (wire w) (ApiDispatch (outgoing config w)) = Some r401 →
  status r401 = 401%Z →
  rejects (backend (wire w ++ [ApiDispatch (outgoing config w)])
             (refresh_call (Js.Str refreshToken))) = true →
  asyncStorage w !! "isLoggedIn" = Some "true" →
  secureStore (api backend config w).2 !! "access_token" = None
  ∧ isLoggedIn (api backend config w).2 = (Ok true, (api backend config w).2).
Proof.
  intros Hurl Hretry Hrt Hne H401 Hs Hb Hflag.
  rewrite isLoggedIn_run.
  rewrite (api_refresh_failure_run backend config w refreshToken r401) by done.
  cbn [fst snd with_secureStore sent secureStore asyncStorage].
  rewrite lookup_delete_ne by done. rewrite lookup_delete_eq, Hflag. done.
Qed.

(** ** [register] *)

Section Registering.

Context (backend : Backend).
Context (JSON_stringify : Json → string).

Lemma validateStatus_not_401 (response : Response) :
  validateStatus (status response) = true → (status response =? 401)%Z = false.
Proof. unfold validateStatus. lia. Qed.

(** The registration call, when it is not answered 401. *)
Lemma authService_register_run userData w :
  status_is_401 (backend (wire w) (ApiDispatch (register_request userData))) = false →
  authService.register backend (register_body userData) w =
    match settled (register_request userData)
            (backend (wire w) (ApiDispatch (register_request userData))) with
    | Ok response => (Ok (body response), sent (ApiDispatch (register_request userData)) w)
    | Throw e => (Throw e, sent (ApiDispatch (register_request userData)) w)
    | OutOfFuel => (OutOfFuel, sent (ApiDispatch (register_request userData)) w)
    end.
Proof.
  intros H. unfold authService.register, api_post.
  fold (register_request userData).
  assert (outgoing (register_request userData) w = register_request userData) as Ho
    by by apply outgoing_auth.
  unfold mbind, Async_bind. rewrite api_not_401; rewrite Ho; [| done].
  by destruct (settled _ _).
Qed.

End Registering.

(** What a call of the instance leaves of the world it started in. *)
Lemma api_frame backend config w outcome w1 :
  api backend config w = (outcome, w1) →
  asyncStorage w1 = asyncStorage w
  ∧ router w1 = router w
  ∧ ∀ k, k ≠ "access_token" → k ≠ "refresh_token" →
      secureStore w1 !! k = secureStore w !! k.
Proof.
  intros Hrun.
  destruct (api_wire backend config w) as (rest & _ & _ & Ha & Hr).
  rewrite Hrun in Ha, Hr. split_and!; [done | done |].
  intros k Hk1 Hk2. rewrite api_unfold in Hrun. cbv zeta in Hrun.
  destruct (_ && _); [| by injection Hrun as _ <-].
  destruct (refresh_block_completes backend (set_retry (outgoing config w))
              (sent (ApiDispatch (outgoing config w)) w))
    as (again & w2 & calls & Hblock & _).
  rewrite Hblock in Hrun.
  pose proof (refresh_block_frame backend _ _ _ _ Hblock k Hk1 Hk2) as Hf.
  destruct again; by injection Hrun as _ <-.
Qed.

(** X13. The registration call succeeds, at once or after a 401, a
    refresh and the re-issue, with a response that lacks a token pair
    (one of the two is missing or empty). [register] reports success with
    the user of the response and adds nothing of its own: the world is
    the one the call left. The mirror, the router and every key of the
    secure store but the two tokens are as before, the tokens being the
    interceptor's to write during a refresh; when the first answer is not
    a 401 no store is written at all. *)
Theorem register_without_session backend JSON_stringify userData w response w1 :
  api_post backend "/auth/register/" (register_body userData) w = (Ok response, w1) →
  Js.truthy (prop (body response) "access") && Js.truthy (prop (body response) "refresh")
    = false →
  register backend JSON_stringify userData w =
    (Ok (mkRegisterResult true (Js.Str "Registration successful")
           (prop (body response) "user")), w1)
  ∧ asyncStorage w1 = asyncStorage w
  ∧ router w1 = router w
  ∧ (∀ k, k ≠ "access_token" → k ≠ "refresh_token" →
       secureStore w1 !! k = secureStore w !! k)
  ∧ (status_is_401 (backend (wire w) (ApiDispatch (register_request userData))) = false →
       w1 = sent (ApiDispatch (register_request userData)) w).
Proof.
  intros Hrun Ht. split.
  - unfold register.
    erewrite try_catch_Ok; [reflexivity |].
    erewrite bind_Ok
      by (unfold authService.register; erewrite bind_Ok by exact Hrun; reflexivity).
    rewrite Ht. by erewrite bind_Ok by reflexivity.
  - unfold api_post in Hrun. fold (register_request userData) in Hrun.
    destruct (api_frame backend _ _ _ _ Hrun) as (Ha & Hr & Hk).
    split_and!; [done | done | done |].
    intros H401.
    assert (outgoing (register_request userData) w = register_request userData) as Ho
      by by apply outgoing_auth.
    rewrite api_not_401 in Hrun; rewrite Ho in *; [| done].
    by injection Hrun as _ <-.
Qed.

(** X14. A registration answered with a token pair: [register] reports
    success and establishes the session as [login] does: the pair, the
    user record made of the form, the role flag and the logged-in flag
    are stored, and the router goes to the surface of the role asked
    for. *)
Theorem register_with_session backend JSON_stringify userData w response access refresh :
  backend (wire w) (ApiDispatch (register_request userData)) = Some response →
  validateStatus (status response) = true →
  prop (body response) "access" = Js.Str access → access ≠ "" →
  prop (body response) "refresh" = Js.Str refresh → refresh ≠ "" →
  let w' := (register backend JSON_stringify userData w).2 in
  (register backend JSON_stringify userData w).1 =
    Ok (mkRegisterResult true (Js.Str "Registration successful")
          (prop (body response) "user"))
  ∧ secureStore w' !! "access_token" = Some access
  ∧ secureStore w' !! "refresh_token" = Some refresh
  ∧ secureStore w' !! "current_user" =
      Some (JSON_stringify (JsonUser (registered_user userData)))
  ∧ asyncStorage w' !! "userRole" = Some (role_text (RegisterData.role userData))
  ∧ asyncStorage w' !! "isLoggedIn" = Some "true"
  ∧ router w' =
      router w ++ [match RegisterData.role userData with
                   | designer => "/(designer-tabs)/dashboard"
                   | client => "/(tabs)/home"
                   end].
Proof.
  intros Hb Hv Ha Hane Hr Hrne. cbv zeta.
  assert (register backend JSON_stringify userData w =
            (Ok (mkRegisterResult true (Js.Str "Registration successful")
                   (prop (body response) "user")),
             session_stored (JSON_stringify (JsonUser (registered_user userData)))
               (RegisterData.role userData) access refresh
               (match RegisterData.role userData with
                | designer => "/(designer-tabs)/dashboard"
                | client => "/(tabs)/home"
                end)
               (sent (ApiDispatch (register_request userData)) w))) as ->.
  { unfold register.
    erewrite try_catch_Ok; [reflexivity |].
    erewrite bind_Ok.
    2:{ rewrite authService_register_run
          by (rewrite Hb; by apply validateStatus_not_401).
        unfold settled. rewrite Hb, Hv. reflexivity. }
    rewrite Ha, Hr. cbn [Js.truthy].
    destruct (String.eqb_spec access ""); [done |].
    destruct (String.eqb_spec refresh ""); [done |]. cbn [negb andb].
    erewrite bind_Ok; [reflexivity |].
    erewrite bind_Ok by apply setUserSession_run. reflexivity. }
  unfold session_stored. cbn [fst snd secureStore asyncStorage router wire sent].
  split_and!; try done.
  - rewrite !lookup_insert_ne by done. by rewrite lookup_insert_eq.
  - rewrite lookup_insert_ne by done. by rewrite lookup_insert_eq.
  - by rewrite lookup_insert_eq.
  - rewrite lookup_insert_ne by done. by rewrite lookup_insert_eq.
  - by rewrite lookup_insert_eq.
Qed.


(** ** [hashPassword] *)

Lemma append_nil_r (s : string) : s +:+ "" = s.
Proof. induction s as [|c s IH]; [done |]. by rewrite append_String, IH. Qed.

Lemma concat_cons (x : string) (xs : list string) :
  String.concat "" (x :: xs) = x +:+ String.concat "" xs.
Proof. destruct xs; simpl; [by rewrite append_nil_r | done]. Qed.

Lemma hex_of_byte b :
  Hex.padStart 2 "0" (Hex.toString16 b) =
    String (Hex.digit (Byte.to_N b / 16)) (String (Hex.digit (Byte.to_N b mod 16)) "").
Proof. by destruct b. Qed.

Lemma hex_of_byte_digits b :
  is_lower_hex (Hex.digit (Byte.to_N b / 16)) = true
  ∧ is_lower_hex (Hex.digit (Byte.to_N b mod 16)) = true.
Proof. by destruct b. Qed.

Lemma hex_of_byte_value b :
  Byte.of_N (16 * hex_value (Hex.digit (Byte.to_N b / 16))
             + hex_value (Hex.digit (Byte.to_N b mod 16))) = Some b.
Proof. by destruct b. Qed.

Lemma encode_cons b bytes :
  Hex.encode (b :: bytes) =
    String (Hex.digit (Byte.to_N b / 16))
      (String (Hex.digit (Byte.to_N b mod 16)) (Hex.encode bytes)).
Proof.
  unfold Hex.encode. rewrite map_cons, concat_cons, hex_of_byte.
  by rewrite !append_String, append_empty.
Qed.

Lemma encode_length bytes : String.length (Hex.encode bytes) = 2 * length bytes.
Proof.
  induction bytes as [|b bytes IH]; [done |].
  rewrite encode_cons. simpl. lia.
Qed.

Lemma encode_hex bytes :
  Forall (λ c, is_lower_hex c = true) (list_ascii_of_string (Hex.encode bytes)).
Proof.
  induction bytes as [|b bytes IH]; [by constructor |].
  rewrite encode_cons. destruct (hex_of_byte_digits b). simpl. by repeat constructor.
Qed.

Lemma encode_inj bytes1 bytes2 : Hex.encode bytes1 = Hex.encode bytes2 → bytes1 = bytes2.
Proof.
  revert bytes2. induction bytes1 as [|b1 bytes1 IH]; intros [|b2 bytes2];
    rewrite ?encode_cons; try done.
  intros [= H1 H2 H3].
  pose proof (hex_of_byte_value b1) as Hb1. rewrite H1, H2, hex_of_byte_value in Hb1.
  f_equal; [congruence | by apply IH].
Qed.

(** X16. [hashPassword] answers a text of two characters per byte of
    the digest (64 for the 32 bytes of SHA-256), all of them lower-case
    hexadecimal digits, and touches nothing. *)
Theorem hashPassword_is_hex TextEncoder_encode SHA256 password w :
  ∃ hash,
    hashPassword TextEncoder_encode SHA256 password w = (Ok hash, w)
    ∧ String.length hash = 2 * length (SHA256 (TextEncoder_encode password))
    ∧ Forall (λ c, is_lower_hex c = true) (list_ascii_of_string hash).
Proof.
  eexists. split; [reflexivity |]. split; [apply encode_length | apply encode_hex].
Qed.

(** X17. The hexadecimal text loses nothing of the digest: two
    passwords get the same hash exactly when their digests are equal. *)
Theorem hashPassword_equal_iff_digest_equal TextEncoder_encode SHA256 password1 password2 w :
  hashPassword TextEncoder_encode SHA256 password1 w
    = hashPassword TextEncoder_encode SHA256 password2 w
  ↔ SHA256 (TextEncoder_encode password1) = SHA256 (TextEncoder_encode password2).
Proof.
  unfold hashPassword. cbv zeta. unfold mret, Async_ret. split.
  - intros [= H]. by apply encode_inj.
  - by intros ->.
Qed.

(** ** Resources addressed by id *)

Lemma includes_cons c s pat :
  Js.includes (String c s) pat = String.prefix pat (String c s) || Js.includes s pat.
Proof. rewrite includes_unfold. by destruct (String.prefix _ _). Qed.

Lemma prefix_auth_slash id :
  String.prefix "auth/" (id +:+ "/") = true → String.prefix "auth" id = true.
Proof.
  intros [t Ht]%prefix_app. apply prefix_app.
  destruct id as [|a [|b [|c [|d rest]]]];
    rewrite ?append_String, ?append_empty in Ht; simplify_eq.
  by exists rest.
Qed.

Lemma includes_slash_auth id :
  Js.includes (id +:+ "/") "/auth/" = true → Js.includes id "auth" = true.
Proof.
  induction id as [|c id IH].
  - intros H. vm_compute in H. done.
  - rewrite append_String, !includes_cons. intros [H|H]%orb_true_iff.
    + apply prefix_app in H as [t Ht]. rewrite !append_String in Ht. simplify_eq.
      rewrite append_empty in H.
      assert (String.prefix "auth/" (id +:+ "/") = true) as Hp
        by (apply prefix_app; by exists t).
      apply prefix_auth_slash in Hp. rewrite (includes_unfold id), Hp. apply orb_true_r.
    + rewrite IH by done. apply orb_true_r.
Qed.

Lemma id_url_auth (id : string) :
  Js.includes id "auth" = false →
  String.prefix "auth/" (id +:+ "/") || Js.includes (id +:+ "/") "/auth/" = false.
Proof.
  intros H. apply orb_false_iff. split.
  - destruct (String.prefix _ _) eqn:E; [| done].
    apply prefix_auth_slash in E. by rewrite includes_unfold, E in H.
  - destruct (Js.includes _ "/auth/") eqn:E; [| done].
    apply includes_slash_auth in E. congruence.
Qed.

(** The URL of a design or of a booking is in the authentication
    namespace only when the id itself holds "auth". *)
Lemma design_url_not_auth id :
  Js.includes id "auth" = false →
  Js.includes ("/designs/" +:+ id +:+ "/") "/auth/" = false.
Proof.
  intros H. rewrite !append_String, append_empty, !includes_cons. simpl.
  by apply id_url_auth.
Qed.

Lemma booking_url_not_auth id :
  Js.includes id "auth" = false →
  Js.includes ("/bookings/" +:+ id +:+ "/") "/auth/" = false.
Proof.
  intros H. rewrite !append_String, append_empty, !includes_cons. simpl.
  by apply id_url_auth.
Qed.

Section FirstCall.

Context (backend : Backend).

Lemma first_call_api config w :
  first_call (api backend config) w = Some (ApiDispatch (outgoing config w)).
Proof.
  unfold first_call.
  destruct (api_wire backend config w) as (rest & -> & _).
  by rewrite lookup_app_r, Nat.sub_diag.
Qed.

Lemma first_call_bind {A B} (m : Async A) (f : A → B) w :
  first_call (m ≫= λ a, mret (f a)) w = first_call m w.
Proof.
  unfold first_call. unfold_async. by destruct (m w) as [[a|e|] w'].
Qed.

End FirstCall.

(** X18. With an access token stored, the request sent for a design
    whose id does not hold "auth" (any numeric id, say) carries the
    bearer header of that token, whether it is fetched, updated or
    deleted. *)
Theorem design_requests_carry_bearer backend id designData w token :
  Js.includes id "auth" = false →
  secureStore w !! "access_token" = Some token → token ≠ "" →
  first_call (designService.getDesign backend id) w =
    Some (ApiDispatch (set_Authorization ("Bearer " +:+ token) (design_request GET id ∅)))
  ∧ first_call (designService.updateDesign backend id designData) w =
      Some (ApiDispatch
              (set_Authorization ("Bearer " +:+ token) (design_request PATCH id designData)))
  ∧ first_call (designService.deleteDesign backend id) w =
      Some (ApiDispatch (set_Authorization ("Bearer " +:+ token) (design_request DELETE id ∅))).
Proof.
  intros Hid Ht Hne.
  unfold designService.getDesign, designService.updateDesign, designService.deleteDesign.
  rewrite !first_call_bind.
  unfold api_get, api_patch, api_delete. rewrite !first_call_api.
  fold (design_request GET id ∅) (design_request PATCH id designData)
    (design_request DELETE id ∅).
  by rewrite !(outgoing_bearer _ _ token) by (done || by apply design_url_not_auth).
Qed.

(** X19. The same for a booking that is updated or cancelled. *)
Theorem booking_requests_carry_bearer backend id bookingData w token :
  Js.includes id "auth" = false →
  secureStore w !! "access_token" = Some token → token ≠ "" →
  first_call (bookingService.updateBooking backend id bookingData) w =
    Some (ApiDispatch
            (set_Authorization ("Bearer " +:+ token) (booking_request PATCH id bookingData)))
  ∧ first_call (bookingService.cancelBooking backend id) w =
      Some (ApiDispatch
              (set_Authorization ("Bearer " +:+ token) (booking_request DELETE id ∅))).
Proof.
  intros Hid Ht Hne.
  unfold bookingService.updateBooking, bookingService.cancelBooking.
  rewrite !first_call_bind.
  unfold api_patch, api_delete. rewrite !first_call_api.
  fold (booking_request PATCH id bookingData) (booking_request DELETE id ∅).
  by rewrite !(outgoing_bearer _ _ token) by (done || by apply booking_url_not_auth).
Qed.

(** X20. The session outlives a failed [refreshAccessToken]: the
    secure store loses its tokens and its record, but the mirror is not
    written, so [getCurrentUser] answers the user of the mirror and
    [isLoggedIn] stays true. *)
Theorem session_outlives_failed_refreshAccessToken backend JSON_parse w refreshToken userJson :
  secureStore w !! "refresh_token" = Some refreshToken → refreshToken ≠ "" →
  rejects (backend (wire w) (ApiDispatch (refresh_request (Js.Str refreshToken)))) = true →
  asyncStorage w !! "current_user" = Some userJson → userJson ≠ "" →
  asyncStorage w !! "isLoggedIn" = Some "true" →
  let w' := (refreshAccessToken backend w).2 in
  secureStore w' !! "current_user" = None
  ∧ getCurrentUser JSON_parse w' = (Ok (JSON_parse userJson), w')
  ∧ isLoggedIn w' = (Ok true, w').
Proof.
  intros Hrt Hne Hb Hu Hune Hflag. cbv zeta.
  rewrite getCurrentUser_run, isLoggedIn_run.
  rewrite (refreshAccessToken_failure_run backend w refreshToken) by done.
  cbn [fst snd with_secureStore sent secureStore asyncStorage].
  rewrite lookup_delete_eq, Hu, Hflag.
  assert (String.eqb userJson "" = false) as He by by apply String.eqb_neq.
  cbn [Js.of_item Js.truthy Js.text Js.is_str]. rewrite He. cbn [negb Js.text].
  by rewrite orb_true_r.
Qed.

(** X21. Whatever tokens are stored, the profile is first asked
    without an [Authorization] header, and so are a registration and a
    login: their URLs are in the authentication namespace. *)
Theorem auth_calls_start_without_header backend w userData email password role :
  first_call (authService.getProfile backend) w =
    Some (ApiDispatch (mkConfig GET "/auth/profile/" None false ∅))
  ∧ first_call (authService.register backend (register_body userData)) w =
      Some (ApiDispatch (register_request userData))
  ∧ first_call (authService.login backend email password (role_text role)) w =
      Some (ApiDispatch (login_request email password role)).
Proof.
  unfold authService.getProfile, authService.register, authService.login.
  rewrite !first_call_bind. unfold api_get, api_post. rewrite !first_call_api.
  by rewrite !outgoing_auth.
Qed.

(** A design whose id is "auth" has a URL of the authentication
    namespace, and is fetched without the header. *)
Lemma design_named_auth_unauthenticated :
  first_call (designService.getDesign expired_backend "auth") logged_in =
    Some (ApiDispatch (design_request GET "auth" ∅)).
Proof. by vm_compute. Qed.

(** ** The further properties at concrete inputs *)

Lemma unauthorized_without_refresh_token_witness :
  (api closed_backend get_designs tokenless).1 =
    Throw (AxiosError (set_retry get_designs) (Some unauthorized))
  ∧ wire (api closed_backend get_designs tokenless).2 = [ApiDispatch get_designs].
Proof.
  rewrite (unauthorized_without_refresh_token closed_backend get_designs tokenless unauthorized).
  - split; reflexivity.
  - reflexivity.
  - reflexivity.
  - reflexivity.
  - reflexivity.
  - reflexivity.
Defined.

Lemma other_answers_pass_through_witness :
  (api failing_backend get_designs logged_in).1 =
    Throw (AxiosError (set_Authorization "Bearer access-1" get_designs) (Some server_error))
  ∧ secureStore (api failing_backend get_designs logged_in).2 = secureStore logged_in.
Proof.
  destruct (other_answers_pass_through failing_backend get_designs logged_in)
    as (Hres & _ & Hs & _).
  - reflexivity.
  - split; [rewrite Hres; reflexivity | exact Hs].
Defined.

Lemma refresh_failure_clears_the_tokens_witness :
  secureStore (api closed_backend get_designs logged_in).2 !! "refresh_token" = None
  ∧ secureStore (api closed_backend get_designs logged_in).2 !! "current_user" = Some "{user}".
Proof.
  destruct (refresh_failure_clears_the_tokens closed_backend get_designs logged_in
              "refresh-1" unauthorized)
    as (_ & _ & _ & Hr & Hk).
  - reflexivity.
  - reflexivity.
  - reflexivity.
  - discriminate.
  - reflexivity.
  - reflexivity.
  - reflexivity.
  - split; [exact Hr |]. rewrite Hk; [reflexivity | discriminate | discriminate].
Defined.

Lemma refreshAccessToken_without_token_witness :
  refreshAccessToken closed_backend tokenless = (Ok Js.Null, tokenless).
Proof. apply refreshAccessToken_without_token. reflexivity. Defined.

Lemma refreshAccessToken_success_witness :
  (refreshAccessToken rotating_backend logged_in).1 = Ok (Js.Str "access-2")
  ∧ secureStore (refreshAccessToken rotating_backend logged_in).2 !! "refresh_token"
      = Some "refresh-2".
Proof.
  destruct (refreshAccessToken_success rotating_backend logged_in "refresh-1" rotated "access-2")
    as (Hres & _ & _ & Hr).
  - reflexivity.
  - discriminate.
  - reflexivity.
  - reflexivity.
  - reflexivity.
  - intros _. by exists "refresh-2".
  - split; [exact Hres | exact Hr].
Defined.

Lemma refreshAccessToken_failure_witness :
  (refreshAccessToken closed_backend logged_in).1 = Ok Js.Null
  ∧ secureStore (refreshAccessToken closed_backend logged_in).2 !! "current_user" = None.
Proof.
  destruct (refreshAccessToken_failure closed_backend logged_in "refresh-1")
    as (Hres & _ & _ & _ & Hu & _).
  - reflexivity.
  - discriminate.
  - reflexivity.
  - split; [exact Hres | exact Hu].
Defined.

Lemma setUserSession_read_back_witness :
  (getCurrentUser parse
     (setUserSession stringify (fallback_user "a@b.com" designer)
        (Some (Js.Str "access-1", Js.Str "refresh-1")) logged_out).2).1
    = Ok (Some (fallback_user "a@b.com" designer))
  ∧ (getUserRole
       (setUserSession stringify (fallback_user "a@b.com" designer)
          (Some (Js.Str "access-1", Js.Str "refresh-1")) logged_out).2).1
      = Ok (Some designer).
Proof.
  destruct (setUserSession_read_back stringify parse (fallback_user "a@b.com" designer)
              "access-1" "refresh-1" logged_out)
    as (_ & _ & _ & _ & Hrole & Huser).
  - discriminate.
  - rewrite Hrole, Huser. split; reflexivity.
Defined.

Lemma login_succeeds_on_token_pair_witness :
  (success <$> outcome_value
     (login profile_down_backend stringify "a@b.com" "pw" client logged_out).1) = Some true
  ∧ secureStore (login profile_down_backend stringify "a@b.com" "pw" client logged_out).2
      !! "refresh_token" = Some "refresh-1".
Proof.
  destruct (login_succeeds_on_token_pair profile_down_backend stringify
              "a@b.com" "pw" client logged_out token_pair "access-1" "refresh-1")
    as (userData & w' & Hrun & _ & _ & Hr & _).
  - reflexivity.
  - reflexivity.
  - reflexivity.
  - reflexivity.
  - rewrite Hrun. split; [reflexivity | exact Hr].
Defined.

Lemma isLoggedIn_after_failed_refresh_witness :
  (isLoggedIn (api closed_backend get_designs logged_in).2).1 = Ok true
  ∧ secureStore (api closed_backend get_designs logged_in).2 !! "access_token" = None.
Proof.
  destruct (isLoggedIn_after_failed_refresh closed_backend get_designs logged_in
              "refresh-1" unauthorized)
    as (Ha & Hl).
  - reflexivity.
  - reflexivity.
  - reflexivity.
  - discriminate.
  - reflexivity.
  - reflexivity.
  - reflexivity.
  - reflexivity.
  - rewrite Hl. split; [reflexivity | exact Ha].
Defined.

Lemma register_without_session_witness :
  (reg_success <$> outcome_value (register guarded_backend stringify newcomer logged_in).1)
    = Some true
  ∧ router (register guarded_backend stringify newcomer logged_in).2 = []
  ∧ secureStore (register guarded_backend stringify newcomer logged_in).2 !! "current_user"
      = Some "{user}"
  ∧ asyncStorage (register guarded_backend stringify newcomer logged_in).2
      = asyncStorage logged_in.
Proof.
  destruct (register_without_session guarded_backend stringify newcomer logged_in created
              (api_post guarded_backend "/auth/register/" (register_body newcomer) logged_in).2)
    as (Hrun & Ha & Hr & Hk & _).
  - vm_compute. reflexivity.
  - reflexivity.
  - rewrite Hrun. cbn [fst snd outcome_value fmap option_fmap option_map reg_success].
    rewrite Ha, Hr, Hk by discriminate. split_and!; reflexivity.
Defined.

(** On that run the interceptor refreshed: the access token stored is
    the one the refresh minted. *)
Lemma register_without_session_refreshes :
  map wire_url (wire (register guarded_backend stringify newcomer logged_in).2) =
    [API_BASE_URL +:+ "/auth/register/"; API_BASE_URL +:+ "/auth/token/refresh/";
     API_BASE_URL +:+ "/auth/register/"]
  ∧ secureStore (register guarded_backend stringify newcomer logged_in).2 !! "access_token"
      = Some "access-2".
Proof. by vm_compute. Qed.

(** An error answer without body gets the fixed texts. *)
Lemma failure_messages_without_body :
  (reg_message <$> outcome_value (register bare_backend stringify newcomer logged_out).1)
    = Some (Js.Str "Registration failed. Please try again.")
  ∧ (message <$> outcome_value
       (login bare_backend stringify "a@b.com" "pw" client logged_out).1)
      = Some (Js.Str "Login failed. Please try again.").
Proof. by vm_compute. Qed.

Lemma register_with_session_witness :
  router (register registering_backend stringify newcomer logged_out).2
    = ["/(designer-tabs)/dashboard"]
  ∧ asyncStorage (register registering_backend stringify newcomer logged_out).2
      !! "isLoggedIn" = Some "true".
Proof.
  destruct (register_with_session registering_backend stringify newcomer logged_out
              created_with_session "access-1" "refresh-1")
    as (_ & _ & _ & _ & _ & Hflag & Hrouter).
  - reflexivity.
  - reflexivity.
  - reflexivity.
  - discriminate.
  - reflexivity.
  - discriminate.
  - split; [exact Hrouter | exact Hflag].
Defined.


Lemma design_requests_carry_bearer_witness :
  first_call (designService.deleteDesign expired_backend "42") logged_in =
    Some (ApiDispatch (set_Authorization "Bearer access-1" (design_request DELETE "42" ∅))).
Proof.
  destruct (design_requests_carry_bearer expired_backend "42" ∅ logged_in "access-1")
    as (_ & _ & Hd).
  - reflexivity.
  - reflexivity.
  - discriminate.
  - exact Hd.
Defined.

Lemma booking_requests_carry_bearer_witness :
  first_call (bookingService.cancelBooking expired_backend "7") logged_in =
    Some (ApiDispatch (set_Authorization "Bearer access-1" (booking_request DELETE "7" ∅))).
Proof.
  destruct (booking_requests_carry_bearer expired_backend "7" ∅ logged_in "access-1")
    as (_ & Hc).
  - reflexivity.
  - reflexivity.
  - discriminate.
  - exact Hc.
Defined.

Lemma session_outlives_failed_refreshAccessToken_witness :
  (getCurrentUser parse (refreshAccessToken closed_backend logged_in).2).1 = Ok None
  ∧ (isLoggedIn (refreshAccessToken closed_backend logged_in).2).1 = Ok true.
Proof.
  destruct (session_outlives_failed_refreshAccessToken closed_backend parse logged_in
              "refresh-1" "{user}")
    as (_ & Hu & Hl).
  - reflexivity.
  - discriminate.
  - reflexivity.
  - reflexivity.
  - discriminate.
  - reflexivity.
  - rewrite Hu, Hl. split; reflexivity.
Defined.
